(** * GraceDaily devotional site: reading view and admin dashboard

    A shallow embedding of the client-side logic of the two views that keep a
    local list of devotions:

    - the reading view with infinite scroll (src/unnamed/part_000):
      [getVerseRefDisplay], [loadDevotions], the intersection-observer
      callback, [openDevotion] and [closeDevotion];
    - the admin dashboard (src/unnamed/part_001): [loadDevotions],
      [createDevotion], [updateDevotion], [deleteDevotion] and the form helpers.

    An [async] function is split at its [await]: the part that runs up to the
    request ([*_begin]) and the part that runs when the response arrives
    ([*_resume]).  The Content Store (Supabase) is outside the repository; its
    answers are inputs of the model, and where a statement needs the content of
    an answer the store is a list of records queried as the source asks
    (ordered by [createdAt], descending, with an inclusive range). *)

From stdpp Require Import list strings sorting lexico gmap.

Set Default Proof Using "Type".

(** ** JavaScript strings

    A JavaScript string is a sequence of UTF-16 code units. *)

Abbreviation jsstring := (list N).

(** Embedding of an ASCII literal, used to write message texts and examples. *)
Definition js (s : string) : jsstring :=
  map Ascii.N_of_ascii (String.list_ascii_of_string s).
Arguments js s%_string.

(** The code units [String.prototype.trim] strips: ECMAScript WhiteSpace
    (TAB, VT, FF, SP, NBSP, ZWNBSP and the space separators) and
    LineTerminator (LF, CR, LS, PS). *)
Definition isWhiteSpace (c : N) : bool :=
  ((9 <=? c) && (c <=? 13) || (c =? 32) || (c =? 160) || (c =? 5760)
   || (8192 <=? c) && (c <=? 8202) || (c =? 8232) || (c =? 8233)
   || (c =? 8239) || (c =? 8287) || (c =? 12288) || (c =? 65279))%N.

Fixpoint trimStart (s : jsstring) : jsstring :=
  match s with
  | [] => []
  | c :: s' => if isWhiteSpace c then trimStart s' else s
  end.

Definition trimEnd (s : jsstring) : jsstring := rev (trimStart (rev s)).

(** [s.trim()] *)
Definition trim (s : jsstring) : jsstring := trimEnd (trimStart s).

(** [s.split(sep)] for a separator of one code unit: the pieces between the
    occurrences of [sep], at least one piece. *)
Fixpoint split (sep : N) (s : jsstring) : list jsstring :=
  match s with
  | [] => [[]]
  | c :: s' =>
      if (c =? sep)%N then [] :: split sep s'
      else match split sep s' with
           | [] => [[c]]
           | p :: ps => (c :: p) :: ps
           end
  end.

(** The code unit of ['|']. *)
Definition bar : N := 124.

(** ** The data model *)

Module Model.

(** [interface Devotion]; the store assigns integer ids. *)
Record Devotion := mkDevotion {
  id : Z;
  title : jsstring;
  verse : jsstring;
  content : jsstring;
  date : jsstring;
  createdAt : jsstring
}.

Global Instance Devotion_eq_dec : EqDecision Devotion.
Proof. solve_decision. Defined.

(** The answer of the store to a query: [{ data, error }]. *)
Inductive Response :=
| Data (items : list Devotion)
| Failure.

(** The answer of the store to an insert, update or delete: [{ error }]. *)
Inductive Ack :=
| Accepted
| Rejected.

End Model.
Export Model.

(** ** The Content Store, as the views query it

    [.order('createdAt', { ascending: false })]: timestamps are the strings
    [toISOString] writes, compared code unit by code unit. *)

Definition created_before (a b : Devotion) : Prop :=
  lexico (createdAt a) (createdAt b).

Definition newer_first (a b : Devotion) : Prop :=
  ~ lexico (createdAt a) (createdAt b).

Global Instance created_before_dec a b : Decision (created_before a b).
Proof. unfold created_before. apply trichotomyT_dec; apply _. Defined.

Global Instance newer_first_dec a b : Decision (newer_first a b).
Proof. unfold newer_first. apply not_dec. apply trichotomyT_dec; apply _. Defined.

Definition order_desc (store : list Devotion) : list Devotion :=
  merge_sort newer_first store.

(** [.range(from, to)]: the rows at positions [from] to [to], both included. *)
Definition range (from to : nat) (rows : list Devotion) : list Devotion :=
  take (to + 1 - from) (drop from rows).

Definition fetchPage (store : list Devotion) (from to : nat) : Response :=
  Data (range from to (order_desc store)).

Definition fetchAll (store : list Devotion) : Response :=
  Data (order_desc store).

(** ** The reading view (src/unnamed/part_000) *)

Module Reader.

Definition pageSize : nat := 9.

(** [getVerseRefDisplay]: [const [ref] = verse.split('|')] takes the first
    piece ([undefined] when there is none), [ref || ''] replaces an absent or
    empty piece by the empty string. *)
Definition getVerseRefDisplay (verse : jsstring) : jsstring :=
  let ref := head (split bar verse) in
  trim (match ref with
        | Some (c :: r) => c :: r
        | Some [] | None => []
        end).

(** A call of [loadDevotions] suspended at its [await]: what the rest of the
    call still reads from its own variables, and the window it asked for. *)
Record Request := mkRequest {
  initial : bool;
  from : nat;
  to : nat
}.

(** The refs of the component.  [bodyOverflow] is
    [document.body.style.overflow]; [pending] holds the suspended calls of
    [loadDevotions], oldest first.  Bookmarks and sharing do not touch any of
    these and are left out. *)
Record State := mkState {
  devotions : list Devotion;
  loading : bool;
  loadingMore : bool;
  error : option jsstring;
  selectedDevotion : option Devotion;
  hasMore : bool;
  bodyOverflow : jsstring;
  pending : list Request
}.

Definition set_devotions v (s : State) : State :=
  mkState v (loading s) (loadingMore s) (error s) (selectedDevotion s)
          (hasMore s) (bodyOverflow s) (pending s).
Definition set_loading v (s : State) : State :=
  mkState (devotions s) v (loadingMore s) (error s) (selectedDevotion s)
          (hasMore s) (bodyOverflow s) (pending s).
Definition set_loadingMore v (s : State) : State :=
  mkState (devotions s) (loading s) v (error s) (selectedDevotion s)
          (hasMore s) (bodyOverflow s) (pending s).
Definition set_error v (s : State) : State :=
  mkState (devotions s) (loading s) (loadingMore s) v (selectedDevotion s)
          (hasMore s) (bodyOverflow s) (pending s).
Definition set_selectedDevotion v (s : State) : State :=
  mkState (devotions s) (loading s) (loadingMore s) (error s) v
          (hasMore s) (bodyOverflow s) (pending s).
Definition set_hasMore v (s : State) : State :=
  mkState (devotions s) (loading s) (loadingMore s) (error s)
          (selectedDevotion s) v (bodyOverflow s) (pending s).
Definition set_bodyOverflow v (s : State) : State :=
  mkState (devotions s) (loading s) (loadingMore s) (error s)
          (selectedDevotion s) (hasMore s) v (pending s).
Definition set_pending v (s : State) : State :=
  mkState (devotions s) (loading s) (loadingMore s) (error s)
          (selectedDevotion s) (hasMore s) (bodyOverflow s) v.

(** The refs as [<script setup>] creates them. *)
Definition setup : State :=
  mkState [] true false None None true [] [].

(** [loadDevotions(initial)] up to its [await]: the flags, the window
    [from .. to] and the query sent to the store. *)
Definition loadDevotions_begin (initial : bool) (s : State) : State :=
  let s1 :=
    if initial
    then set_hasMore true (set_devotions [] (set_loading true s))
    else set_loadingMore true s in
  let from := if initial then 0 else length (devotions s1) in
  let to := from + pageSize - 1 in
  set_pending (pending s1 ++ [mkRequest initial from to]) s1.

(** [loadDevotions(initial)] from the answer on. *)
Definition loadDevotions_resume (r : Request) (resp : Response) (s : State)
  : State :=
  let s1 :=
    match resp with
    | Failure =>
        set_error
          (Some (js "Unable to load devotions. Please try again later.")) s
    | Data items =>
        let s' :=
          set_devotions
            (if initial r then items else devotions s ++ items) s in
        if length items <? pageSize then set_hasMore false s' else s'
    end in
  set_loadingMore false (set_loading false s1).

(** The callback given to [useIntersectionObserver]; [isIntersecting] is
    [entry?.isIntersecting]. *)
Definition onIntersect (isIntersecting : bool) (s : State) : State :=
  if isIntersecting && hasMore s && negb (loadingMore s) && negb (loading s)
  then loadDevotions_begin false s
  else s.

Definition openDevotion (devotion : Devotion) (s : State) : State :=
  set_bodyOverflow (js "hidden") (set_selectedDevotion (Some devotion) s).

Definition closeDevotion (s : State) : State :=
  set_bodyOverflow [] (set_selectedDevotion None s).

(** What can happen to a mounted view: the observer reports the sentinel, the
    store answers the [i]-th suspended call, the reader opens a devotion or
    closes the modal. *)
Inductive Event :=
| Intersect (isIntersecting : bool)
| Settle (i : nat) (resp : Response)
| Open (devotion : Devotion)
| Close.

Definition settle (i : nat) (resp : Response) (s : State) : State :=
  match pending s !! i with
  | Some r => loadDevotions_resume r resp (set_pending (delete i (pending s)) s)
  | None => s
  end.

Definition step (e : Event) (s : State) : State :=
  match e with
  | Intersect b => onIntersect b s
  | Settle i resp => settle i resp s
  | Open d => openDevotion d s
  | Close => closeDevotion s
  end.

Definition run (evs : list Event) (s : State) : State :=
  foldl (fun s e => step e s) s evs.

(** [onMounted(() => loadDevotions(true))] *)
Definition mounted : State := loadDevotions_begin true setup.

(** The template offers [openDevotion] on the entries of [devotions] only
    (the first one as today's devotion once [loading] is off, the others in
    the grid). *)
Definition offered (e : Event) (s : State) : Prop :=
  match e with
  | Open d => d ∈ devotions s
  | _ => True
  end.

(** The states of a mounted view. *)
Inductive reachable : State -> Prop :=
| reachable_mounted : reachable mounted
| reachable_step s e : reachable s -> offered e s -> reachable (step e s).

(** What holds of every mounted view (see [ReaderFacts.view_inv_reachable]): no
    call is suspended and both flags are off, or one call is suspended and
    its flag is on, the first load finding the view as it was set up; and the
    selection is an entry of the cache. *)
Definition view_inv (s : State) : Prop :=
  match pending s with
  | [] => loading s = false /\ loadingMore s = false
  | [r] =>
      if initial r
      then loading s = true /\ loadingMore s = false /\
           selectedDevotion s = None /\ devotions s = []
      else loading s = false /\ loadingMore s = true
  | _ => False
  end /\
  forall d, selectedDevotion s = Some d -> d ∈ devotions s.

(** A call of [loadDevotions(false)] that runs to its end with the answer
    [resp], nothing happening in between. *)
Definition loadNext (resp : Response) (s : State) : State :=
  settle (length (pending s)) resp (loadDevotions_begin false s).

(** The same for the call made on mount. *)
Definition loadInitial (resp : Response) (s : State) : State :=
  settle (length (pending s)) resp (loadDevotions_begin true s).

(** The calls of [loadDevotions(false)] for the pages [pages], one after the
    other, each answered before the next is made. *)
Definition loadNexts (pages : list (list Devotion)) (s : State) : State :=
  foldl (fun s items => loadNext (Data items) s) s pages.

(** The store [store] answers the oldest suspended call with the window it
    asked for. *)
Definition serve (store : list Devotion) (s : State) : State :=
  match pending s with
  | r :: _ => settle 0 (fetchPage store (from r) (to r)) s
  | [] => s
  end.

(** The requests an event adds to the suspended calls: the fetches it
    issues. *)
Definition issued_by (e : Event) (s : State) : list Request :=
  drop (length (pending s)) (pending (step e s)).

End Reader.

(** ** The admin dashboard (src/unnamed/part_001) *)

Module Admin.

(** The four fields the form edits. *)
Record Fields := mkFields {
  f_title : jsstring;
  f_verse : jsstring;
  f_content : jsstring;
  f_date : jsstring
}.

(** What a call hands to the outside when it stops: a request to the store,
    or the [RangeError] of [toISOString] on an invalid date. *)
Inductive Request :=
| SelectAll
| Insert (fields : Fields) (createdAt : jsstring)
| Update (id : Z) (fields : Fields)
| Delete (id : Z)
| RangeError.

(** The refs of the component; [alerts] collects the texts given to [alert],
    oldest first.  The editor element and the session email are left out. *)
Record State := mkState {
  devotions : list Devotion;
  loading : bool;
  error : option jsstring;
  title : jsstring;
  date : jsstring;
  verse : jsstring;
  content : jsstring;
  submitting : bool;
  editingId : option Z;
  alerts : list jsstring
}.

Definition set_devotions v (s : State) : State :=
  mkState v (loading s) (error s) (title s) (date s) (verse s) (content s)
          (submitting s) (editingId s) (alerts s).
Definition set_loading v (s : State) : State :=
  mkState (devotions s) v (error s) (title s) (date s) (verse s) (content s)
          (submitting s) (editingId s) (alerts s).
Definition set_error v (s : State) : State :=
  mkState (devotions s) (loading s) v (title s) (date s) (verse s) (content s)
          (submitting s) (editingId s) (alerts s).
Definition set_submitting v (s : State) : State :=
  mkState (devotions s) (loading s) (error s) (title s) (date s) (verse s)
          (content s) v (editingId s) (alerts s).
Definition set_form (f : Fields) (e : option Z) (s : State) : State :=
  mkState (devotions s) (loading s) (error s) (f_title f) (f_date f)
          (f_verse f) (f_content f) (submitting s) e (alerts s).
Definition alert (msg : jsstring) (s : State) : State :=
  mkState (devotions s) (loading s) (error s) (title s) (date s) (verse s)
          (content s) (submitting s) (editingId s) (alerts s ++ [msg]).

Section WithDates.

(** [new Date(v).toISOString()]: the ISO text of the date written [v], or
    [None] when [v] is not a date ([toISOString] then throws). *)
Variable toISOString : jsstring -> option jsstring.

(** [date.value] at setup: [new Date().toISOString().slice(0, 10)], [now]
    being the ISO text of the clock. *)
Definition setup (now : jsstring) : State :=
  mkState [] true None [] (take 10 now) [] [] false None [].

Definition loadDevotions_begin (s : State) : State * option Request :=
  (set_error None (set_loading true s), Some SelectAll).

Definition loadDevotions_resume (resp : Response) (s : State) : State :=
  match resp with
  | Failure =>
      set_loading false (set_error (Some (js "Unable to load devotions.")) s)
  | Data items => set_loading false (set_devotions items s)
  end.

Definition resetForm (now : jsstring) (s : State) : State :=
  set_form (mkFields [] [] [] (take 10 now)) None s.

(** [createDevotion] up to its [await]. *)
Definition createDevotion_begin (now : jsstring) (s : State)
  : State * option Request :=
  let s1 := set_error None (set_submitting true s) in
  match toISOString (date s1) with
  | None => (s1, Some RangeError)
  | Some iso =>
      (s1, Some (Insert (mkFields (trim (title s1)) (trim (verse s1))
                                  (trim (content s1)) iso) now))
  end.

(** [createDevotion] from the answer on; its last statement starts
    [loadDevotions] without waiting for it. *)
Definition createDevotion_resume (now : jsstring) (ack : Ack) (s : State)
  : State * option Request :=
  match ack with
  | Rejected =>
      (alert (js "Unable to publish devotion. Please try again.")
             (set_submitting false s), None)
  | Accepted =>
      let s1 := alert (js "Devotion published successfully.") s in
      let s2 := set_submitting false (resetForm now s1) in
      loadDevotions_begin s2
  end.

Definition startEdit (devotion : Devotion) (s : State) : State :=
  let d := match toISOString (Model.date devotion) with
           | Some iso => take 10 iso
           | None => date s
           end in
  set_form (mkFields (Model.title devotion) (Model.verse devotion)
                     (Model.content devotion) d)
           (Some (id devotion)) s.

(** [updateDevotion] up to its [await]; [!editingId.value] holds for [null]
    and for [0]. *)
Definition updateDevotion_begin (s : State) : State * option Request :=
  match editingId s with
  | None => (s, None)
  | Some i =>
      if (i =? 0)%Z then (s, None)
      else
        let s1 := set_error None (set_submitting true s) in
        match toISOString (date s1) with
        | None => (s1, Some RangeError)
        | Some iso =>
            (s1, Some (Update i (mkFields (trim (title s1)) (trim (verse s1))
                                          (trim (content s1)) iso)))
        end
  end.

(** The entry written over [existing]: [{ ...existing, title, verse, content,
    date }]. *)
Definition patched (existing : Devotion) (f : Fields) : Devotion :=
  mkDevotion (id existing) (f_title f) (f_verse f) (f_content f) (f_date f)
             (createdAt existing).

(** [updateDevotion] from the answer on.  [devotionDate] is the ISO text of
    the constant of that name, computed before the [await]; the other fields
    are read from the form again. *)
Definition updateDevotion_resume (devotionDate now : jsstring) (ack : Ack)
  (s : State) : State :=
  match ack with
  | Rejected =>
      alert (js "Unable to update devotion. Please try again.")
            (set_submitting false s)
  | Accepted =>
      let f := mkFields (trim (title s)) (trim (verse s)) (trim (content s))
                        devotionDate in
      let s1 :=
        match list_find (fun d => Some (id d) = editingId s) (devotions s) with
        | Some (index, existing) =>
            set_devotions (<[index := patched existing f]> (devotions s)) s
        | None => s
        end in
      set_submitting false
        (resetForm now (alert (js "Devotion updated successfully.") s1))
  end.

Definition cancelEdit (now : jsstring) (s : State) : State := resetForm now s.

(** [deleteDevotion] up to its [await]; [confirmed] is the answer to
    [window.confirm]. *)
Definition deleteDevotion_begin (confirmed : bool) (devotion : Devotion)
  (s : State) : State * option Request :=
  if confirmed then (s, Some (Delete (id devotion))) else (s, None).

(** [deleteDevotion] from the answer on. *)
Definition deleteDevotion_resume (devotion : Devotion) (ack : Ack) (s : State)
  : State :=
  match ack with
  | Rejected => alert (js "Unable to delete devotion.") s
  | Accepted =>
      set_devotions (filter (fun d => id d <> id devotion) (devotions s)) s
  end.

End WithDates.

End Admin.

(** ** The store's side of the admin requests

    The store is a list of rows; an insert adds a row under the id the store
    picks, a delete drops the rows of that id. *)

Definition store_insert (new_id : Z) (f : Admin.Fields) (created : jsstring)
  (store : list Devotion) : list Devotion :=
  store ++ [mkDevotion new_id (Admin.f_title f) (Admin.f_verse f)
                       (Admin.f_content f) (Admin.f_date f) created].

Definition store_delete (i : Z) (store : list Devotion) : list Devotion :=
  filter (fun d => id d <> i) store.

(** A reader's session and the admin's session on one store. *)
Record Site := mkSite {
  store : list Devotion;
  reader : Reader.State;
  admin : Admin.State
}.

(** The admin confirms the deletion of [devotion] and the store accepts it. *)
Definition site_delete (devotion : Devotion) (w : Site) : Site :=
  match Admin.deleteDevotion_begin true devotion (admin w) with
  | (a, Some (Admin.Delete i)) =>
      mkSite (store_delete i (store w)) (reader w)
             (Admin.deleteDevotion_resume devotion Accepted a)
  | (a, _) => mkSite (store w) (reader w) a
  end.

(** ** Sample data *)

Module Samples.

Definition sample (i : Z) (day : string) : Devotion :=
  mkDevotion i (js ("Day " +:+ day))
             (js "John 3:16 | For God so loved the world...")
             (js "<p>Grace for today.</p>")
             (js ("2025-01-" +:+ day +:+ "T00:00:00.000Z"))
             (js ("2025-01-" +:+ day +:+ "T06:30:00.000Z")).

Definition days : list string :=
  ["01"; "02"; "03"; "04"; "05"; "06"; "07"; "08"; "09"; "10";
   "11"; "12"; "13"; "14"; "15"; "16"; "17"; "18"; "19"; "20"].

(** Twenty records in the order of their creation, ids 1 to 20. *)
Definition twenty : list Devotion :=
  imap (fun k day => sample (Z.of_nat (S k)) day) days.

Definition clock : jsstring := js "2025-01-21T08:15:00.000Z".

(** A stand-in for [new Date(v).toISOString()] on the values of a date
    input: ten code units are a date, anything else is not. *)
Definition isoOfInput (v : jsstring) : option jsstring :=
  if decide (length v = 10) then Some (v ++ js "T00:00:00.000Z") else None.

(** An admin dashboard in the middle of editing the second of three
    devotions. *)
Definition editing : Admin.State :=
  Admin.mkState (reverse (take 3 twenty)) false None
                (js "  Grace upon grace ") (js "2025-02-01")
                (js "John 1:16 | Out of his fullness ")
                (js "<p>Grace for today.</p> ") true (Some 2%Z) [].

(** An admin dashboard with a new devotion typed into the form. *)
Definition composing : Admin.State :=
  Admin.mkState (reverse (take 3 twenty)) false None
                (js " Mercies new every morning") (js "2025-01-21")
                (js "Lamentations 3:23 | Great is thy faithfulness ")
                (js "<p>Morning by morning.</p>") false None [].

(** A reader with the second of three devotions open, and the admin
    dashboard loaded, on the same store. *)
Definition opened : Site :=
  let rows := take 3 twenty in
  mkSite rows
         (Reader.step (Reader.Open (sample 2 "02"))
                      (Reader.serve rows Reader.mounted))
         (Admin.loadDevotions_resume (fetchAll rows)
            (Admin.loadDevotions_begin (Admin.setup clock)).1).

End Samples.

(** ** Format and preview utilities, bookmarks (src/unnamed/part_000) *)

Module Display.

(** [parts.join(sep)] for a separator of one code unit. *)
Fixpoint join (sep : N) (parts : list jsstring) : jsstring :=
  match parts with
  | [] => []
  | p :: ps =>
      match ps with
      | [] => p
      | _ :: _ => p ++ sep :: join sep ps
      end
  end.

(** [getVerseTooltipText] *)
Definition getVerseTooltipText (verse : jsstring) : jsstring :=
  let parts := split bar verse in
  if 1 <? length parts
  then trim (join bar (drop 1 parts))
  else trim verse.

(** The code unit of the horizontal ellipsis. *)
Definition ellipsis : N := 8230.

Section WithPlainText.

(** [getPlainText] reads the text of an element built from the markup when
    there is a document, and works with regular expressions when there is
    none; it is taken as given. *)
Variable getPlainText : jsstring -> jsstring.

(** [getPreview(devotion, length)]; the view calls it with 280 and 100, the
    default is 120. *)
Definition getPreview (devotion : Devotion) (len : nat) : jsstring :=
  let text := getPlainText (content devotion) in
  if length text <=? len then text else take len text ++ [ellipsis].

End WithPlainText.

(** [todaysDevotion]: [devotions.value[0] || null]. *)
Definition todaysDevotion (s : Reader.State) : option Devotion :=
  head (Reader.devotions s).

(** [toggleBookmark(id)] on the set [bookmarked]. *)
Definition toggleBookmark (i : Z) (bookmarked : gset Z) : gset Z :=
  if decide (i ∈ bookmarked)
  then bookmarked ∖ {[ i ]}
  else {[ i ]} ∪ bookmarked.

End Display.

(** ** Runs of the reading view *)

Module Scroll.
Import Reader.

(** [reaches s s']: the view gets from [s] to [s'] by events the template
    offers. *)
Inductive reaches (s : State) : State -> Prop :=
| reaches_here : reaches s s
| reaches_step s' e : reaches s s' -> offered e s' -> reaches s (step e s').

(** What [error] holds after a failed fetch. *)
Definition load_error : option jsstring :=
  Some (js "Unable to load devotions. Please try again later.").

(** The view at rest on the cache [c]: nothing under way, no error shown, no
    devotion open. *)
Definition atRest (c : list Devotion) (more : bool) : State :=
  mkState c false false None None more [] [].

(** The sentinel is reported once and the store answers the fetch, if one
    was issued. *)
Definition scrollRound (store : list Devotion) (s : State) : State :=
  serve store (step (Intersect true) s).

(** The view after the load on mount and [k] more reports of the sentinel,
    every fetch answered by [store] before the next report. *)
Definition scrolled (store : list Devotion) (k : nat) : State :=
  Nat.iter k (scrollRound store) (serve store mounted).

End Scroll.

(** ** The admin dashboard at work (template of src/unnamed/part_001) *)

Module Dashboard.

(** The form inputs ([v-model]) and the editor ([onEditorInput]) write the
    refs of the form. *)
Definition set_title (v : jsstring) (s : Admin.State) : Admin.State :=
  Admin.mkState (Admin.devotions s) (Admin.loading s) (Admin.error s) v
                (Admin.date s) (Admin.verse s) (Admin.content s)
                (Admin.submitting s) (Admin.editingId s) (Admin.alerts s).
Definition set_date (v : jsstring) (s : Admin.State) : Admin.State :=
  Admin.mkState (Admin.devotions s) (Admin.loading s) (Admin.error s)
                (Admin.title s) v (Admin.verse s) (Admin.content s)
                (Admin.submitting s) (Admin.editingId s) (Admin.alerts s).
Definition set_verse (v : jsstring) (s : Admin.State) : Admin.State :=
  Admin.mkState (Admin.devotions s) (Admin.loading s) (Admin.error s)
                (Admin.title s) (Admin.date s) v (Admin.content s)
                (Admin.submitting s) (Admin.editingId s) (Admin.alerts s).
Definition set_content (v : jsstring) (s : Admin.State) : Admin.State :=
  Admin.mkState (Admin.devotions s) (Admin.loading s) (Admin.error s)
                (Admin.title s) (Admin.date s) (Admin.verse s) v
                (Admin.submitting s) (Admin.editingId s) (Admin.alerts s).

(** [editingId] as a condition: [null] and [0] are falsy. *)
Definition truthy (e : option Z) : bool :=
  match e with
  | Some i => negb (i =? 0)%Z
  | None => false
  end.

(** A call suspended at its [await]: [loadSession] on mount,
    [loadDevotions], [createDevotion], [updateDevotion] with the ISO text of
    its [devotionDate], [deleteDevotion] with its argument. *)
Inductive Call :=
| LoadingSession
| Loading
| Creating
| Updating (devotionDate : jsstring)
| Deleting (devotion : Devotion).

Definition is_submit (c : Call) : bool :=
  match c with
  | Creating | Updating _ => true
  | _ => false
  end.

(** The calls of [createDevotion] and [updateDevotion] under way. *)
Definition submits (calls : list Call) : list Call :=
  filter (fun c => is_submit c = true) calls.

Record Session := mkSession {
  view : Admin.State;
  calls : list Call
}.

(** What the admin and the store can do to a mounted dashboard. *)
Inductive Event :=
| TypeTitle (v : jsstring)
| TypeDate (v : jsstring)
| TypeVerse (v : jsstring)
| TypeContent (v : jsstring)
| ClickSubmit (now : jsstring)
| ClickEdit (devotion : Devotion)
| ClickCancel (now : jsstring)
| ClickDelete (devotion : Devotion) (confirmed : bool)
| SessionLoaded (i : nat)
| Loaded (i : nat) (resp : Response)
| Acked (i : nat) (ack : Ack) (now : jsstring).

(** The fields a request carries to the store. *)
Definition payload (r : Admin.Request) : option Admin.Fields :=
  match r with
  | Admin.Insert f _ | Admin.Update _ f => Some f
  | _ => None
  end.

(** A text without white space at either end. *)
Definition trimmed (t : jsstring) : Prop :=
  (forall c, head t = Some c -> isWhiteSpace c = false) /\
  (forall c, last t = Some c -> isWhiteSpace c = false).

(** The events that bring good news from the store: rows for a load, the
    acceptance of an insert, update or delete. *)
Definition successful_answer (e : Event) : Prop :=
  match e with
  | Loaded _ (Data _) | Acked _ Accepted _ => True
  | _ => False
  end.

(** The store answers a load with rows of different ids. *)
Definition answer_unique (e : Event) : Prop :=
  match e with
  | Loaded _ (Data items) => NoDup (id <$> items)
  | _ => True
  end.

Section WithDates.

Variable toISOString : jsstring -> option jsstring.

(** The submit button: [editingId ? updateDevotion() : createDevotion()]. *)
Definition clickSubmit (now : jsstring) (s : Admin.State)
  : Admin.State * option Admin.Request :=
  if truthy (Admin.editingId s)
  then Admin.updateDevotion_begin toISOString s
  else Admin.createDevotion_begin toISOString now s.

(** The call left suspended by a click on the submit button; none when the
    call returned or threw before its request. *)
Definition submitted (r : option Admin.Request) : list Call :=
  match r with
  | Some (Admin.Insert _ _) => [Creating]
  | Some (Admin.Update _ f) => [Updating (Admin.f_date f)]
  | _ => []
  end.

Definition step (e : Event) (ss : Session) : Session :=
  let s := view ss in
  match e with
  | TypeTitle v => mkSession (set_title v s) (calls ss)
  | TypeDate v => mkSession (set_date v s) (calls ss)
  | TypeVerse v => mkSession (set_verse v s) (calls ss)
  | TypeContent v => mkSession (set_content v s) (calls ss)
  | ClickSubmit now =>
      let out := clickSubmit now s in
      mkSession out.1 (calls ss ++ submitted out.2)
  | ClickEdit d => mkSession (Admin.startEdit toISOString d s) (calls ss)
  | ClickCancel now => mkSession (Admin.cancelEdit now s) (calls ss)
  | ClickDelete d confirmed =>
      let out := Admin.deleteDevotion_begin confirmed d s in
      mkSession out.1
                (calls ss ++ match out.2 with
                             | Some (Admin.Delete _) => [Deleting d]
                             | _ => []
                             end)
  | SessionLoaded i =>
      match calls ss !! i with
      | Some LoadingSession =>
          mkSession (Admin.loadDevotions_begin s).1
                    (delete i (calls ss) ++ [Loading])
      | _ => ss
      end
  | Loaded i resp =>
      match calls ss !! i with
      | Some Loading =>
          mkSession (Admin.loadDevotions_resume resp s) (delete i (calls ss))
      | _ => ss
      end
  | Acked i ack now =>
      match calls ss !! i with
      | Some Creating =>
          let out := Admin.createDevotion_resume now ack s in
          mkSession out.1
                    (delete i (calls ss) ++ match out.2 with
                                            | Some Admin.SelectAll => [Loading]
                                            | _ => []
                                            end)
      | Some (Updating devotionDate) =>
          mkSession (Admin.updateDevotion_resume devotionDate now ack s)
                    (delete i (calls ss))
      | Some (Deleting d) =>
          mkSession (Admin.deleteDevotion_resume d ack s) (delete i (calls ss))
      | _ => ss
      end
  end.

(** What the template offers: the submit button is disabled while
    [submitting]; "Cancel editing" shows while [editingId] is truthy; the
    list with its Edit and Delete buttons shows when [loading] is off, no
    error is set and the list is not empty. *)
Definition offered (e : Event) (ss : Session) : Prop :=
  let s := view ss in
  match e with
  | ClickSubmit _ => Admin.submitting s = false
  | ClickCancel _ => truthy (Admin.editingId s) = true
  | ClickEdit d | ClickDelete d _ =>
      Admin.loading s = false /\ Admin.error s = None /\
      d ∈ Admin.devotions s
  | _ => True
  end.

(** [onMounted]: [loadSession] is awaited first, [loadDevotions] follows. *)
Definition mounted (now : jsstring) : Session :=
  mkSession (Admin.setup now) [LoadingSession].

(** While [submitting] is off no create or update is under way; while it
    is on, at most one (see [DashboardFacts.submit_inv_reachable]). *)
Definition submit_inv (ss : Session) : Prop :=
  if Admin.submitting (view ss)
  then length (submits (calls ss)) <= 1
  else submits (calls ss) = [].

Inductive reachable : Session -> Prop :=
| reachable_mounted now : reachable (mounted now)
| reachable_step ss e : reachable ss -> offered e ss -> reachable (step e ss).

Inductive reaches (ss : Session) : Session -> Prop :=
| reaches_here : reaches ss ss
| reaches_step ss' e :
    reaches ss ss' -> offered e ss' -> reaches ss (step e ss').

End WithDates.

End Dashboard.

(** ** The route guard (src/unnamed/part_001, router) *)

Module Router.

(** A route record; [requiresAuth] is [meta.requiresAuth], absent on the
    routes without [meta]. *)
Record Route := mkRoute {
  path : jsstring;
  name : jsstring;
  requiresAuth : bool
}.

Definition routes : list Route :=
  [mkRoute (js "/") (js "home") false;
   mkRoute (js "/admin/login") (js "admin-login") false;
   mkRoute (js "/admin") (js "admin-dashboard") true].

(** The target of a navigation: the record it matches and the full path
    asked for. *)
Record Location := mkLocation {
  matched : Route;
  fullPath : jsstring
}.

(** The answer of [supabase.auth.getSession()] and of
    [signInWithPassword]: [{ data: { session }, error }]. *)
Record AuthAnswer := mkAuthAnswer {
  error : bool;
  session : option jsstring
}.

(** What the guard hands to [next]. *)
Inductive Next :=
| Proceed
| Redirect (name : jsstring) (redirect : jsstring).

(** [authGuard] up to its [await]: [next()] at once on a route that does
    not require a session, the question to the identity provider
    otherwise. *)
Definition authGuard_begin (to : Location) : option Next :=
  if negb (requiresAuth (matched to)) then Some Proceed else None.

(** [authGuard] from the answer on. *)
Definition authGuard_resume (to : Location) (a : AuthAnswer) : Next :=
  if error a || negb (bool_decide (is_Some (session a)))
  then Redirect (js "admin-login") (fullPath to)
  else Proceed.

Definition authGuard (to : Location) (a : AuthAnswer) : Next :=
  match authGuard_begin to with
  | Some n => n
  | None => authGuard_resume to a
  end.

(** The record a route name stands for. *)
Definition resolve (n : jsstring) : option Route :=
  snd <$> list_find (fun r => name r = n) routes.

End Router.

(** ** The login screen (src/src/views/AdminLoginView.vue) *)

Module Login.

Record State := mkState {
  email : jsstring;
  password : jsstring;
  loading : bool;
  error : option jsstring
}.

(** What [handleLogin] does to the outside after the answer. *)
Inductive Effect :=
| Alert (msg : jsstring)
| Push (path : jsstring).

Definition setup : State := mkState [] [] false None.

(** [handleLogin] up to its [await]: the flags and the credentials sent. *)
Definition handleLogin_begin (s : State) : State * (jsstring * jsstring) :=
  (mkState (email s) (password s) true None, (trim (email s), password s)).

(** [handleLogin] from the answer on; [redirect] is [route.query.redirect],
    [(redirect as string) || '/admin'] falls back on an absent or empty
    one. *)
Definition handleLogin_resume (redirect : option jsstring)
  (a : Router.AuthAnswer) (s : State) : State * list Effect :=
  if Router.error a || negb (bool_decide (is_Some (Router.session a)))
  then (mkState (email s) (password s) false
          (Some (js "Login failed. Please check your details and try again.")),
        [])
  else (s, [Alert (js "Welcome back.");
            Push (match redirect with
                  | Some (c :: r) => c :: r
                  | _ => js "/admin"
                  end)]).

End Login.

(** ** More sample data *)

Module MoreSamples.

(** A dashboard that has loaded three devotions, the date input emptied. *)
Definition dateless : Dashboard.Session :=
  foldl (fun ss e => Dashboard.step Samples.isoOfInput e ss)
        (Dashboard.mounted Samples.clock)
        [Dashboard.SessionLoaded 0;
         Dashboard.Loaded 0 (fetchAll (take 3 Samples.twenty));
         Dashboard.TypeTitle (js "Mercies new every morning");
         Dashboard.TypeDate []].

(** The same dashboard with a publish under way. *)
Definition publishing : Dashboard.Session :=
  foldl (fun ss e => Dashboard.step Samples.isoOfInput e ss)
        (Dashboard.mounted Samples.clock)
        [Dashboard.SessionLoaded 0;
         Dashboard.Loaded 0 (fetchAll (take 3 Samples.twenty));
         Dashboard.TypeTitle (js "Mercies new every morning");
         Dashboard.ClickSubmit Samples.clock].

(** A stand-in for [new Date(v).toISOString()] that also reads back the
    ISO texts it writes: ten code units are the value of a date input,
    twenty-four an ISO text, anything else is not a date. *)
Definition isoOfDate (v : jsstring) : option jsstring :=
  if decide (length v = 10) then Some (v ++ js "T00:00:00.000Z")
  else if decide (length v = 24) then Some v
  else None.

(** A dashboard that has loaded three devotions. *)
Definition loaded : Dashboard.Session :=
  foldl (fun ss e => Dashboard.step isoOfDate e ss)
        (Dashboard.mounted Samples.clock)
        [Dashboard.SessionLoaded 0;
         Dashboard.Loaded 0 (fetchAll (take 3 Samples.twenty))].

(** The admin has opened the devotion with the id 2 and given it a new
    title and a new date. *)
Definition retitled : Dashboard.Session :=
  foldl (fun ss e => Dashboard.step isoOfDate e ss) loaded
        [Dashboard.ClickEdit (Samples.sample 2 "02");
         Dashboard.TypeTitle (js "Grace upon grace");
         Dashboard.TypeDate (js "2030-12-25")].

(** The update is sent; before the store answers, the admin opens the
    devotion with the id 3; then the store accepts the update. *)
Definition overtaken : Dashboard.Session :=
  foldl (fun ss e => Dashboard.step isoOfDate e ss) retitled
        [Dashboard.ClickSubmit Samples.clock;
         Dashboard.ClickEdit (Samples.sample 3 "03");
         Dashboard.Acked 0 Accepted Samples.clock].

(** A devotion the store has given the id 0. *)
Definition zeroth : Devotion :=
  mkDevotion 0 (js "First light") (js "Genesis 1:3 | Let there be light")
             (js "<p>In the beginning.</p>")
             (js "2025-01-01T00:00:00.000Z") (js "2025-01-01T05:00:00.000Z").

End MoreSamples.

(** * Properties *)

(** Closes a decidable goal about concrete data by evaluating its decision
    procedure. *)
Ltac by_evaluation := apply (bool_decide_unpack _); vm_compute; exact I.

(** ** The order of the store's answers *)

Section StoreOrder.

Implicit Types (a b : Devotion) (l store recs : list Devotion).

Global Instance created_before_strict : StrictOrder created_before.
Proof.
  split.
  - intros a. apply (irreflexivity (@lexico jsstring _)).
  - intros a b c. apply (transitivity (R:=@lexico jsstring _)).
Qed.

Lemma newer_first_spec a b :
  newer_first a b <-> created_before b a \/ createdAt a = createdAt b.
Proof.
  unfold newer_first, created_before. split.
  - intros Hn.
    destruct (trichotomy (@lexico jsstring _) (createdAt a) (createdAt b))
      as [?|[?|?]]; [done|by right|by left].
  - intros [Hba| ->] Hab.
    + by apply (irreflexivity (@lexico jsstring _) (createdAt a));
        etrans.
    + by apply (irreflexivity (@lexico jsstring _) (createdAt b)).
Qed.

Global Instance newer_first_total : Total newer_first.
Proof.
  intros a b. rewrite !newer_first_spec.
  destruct (trichotomy (@lexico jsstring _) (createdAt a) (createdAt b))
    as [?|[?|?]]; unfold created_before; auto.
Qed.

Global Instance newer_first_trans : Transitive newer_first.
Proof.
  intros a b c. rewrite !newer_first_spec. unfold created_before.
  intros [Hba|Hab] [Hcb|Hbc].
  - left. by etrans.
  - left. by rewrite <-Hbc.
  - left. by rewrite Hab.
  - right. by rewrite Hab.
Qed.

Lemma order_desc_sorted store : StronglySorted newer_first (order_desc store).
Proof. apply StronglySorted_merge_sort; apply _. Qed.

Lemma order_desc_perm store : order_desc store ≡ₚ store.
Proof. apply merge_sort_Permutation. Qed.

Lemma created_before_newer_first a b : created_before a b -> newer_first b a.
Proof. rewrite newer_first_spec. auto. Qed.

Lemma sorted_created_inj recs a b :
  StronglySorted created_before recs ->
  a ∈ recs -> b ∈ recs -> createdAt a = createdAt b -> a = b.
Proof.
  intros Hs Ha Hb Hab. induction Hs as [|x l _ IH Hx]; [by inv Ha|].
  rewrite Forall_forall in Hx.
  assert (forall y, y ∈ l -> createdAt x <> createdAt y) as Hne.
  { intros y Hy Hxy. apply Hx in Hy. unfold created_before in Hy.
    rewrite Hxy in Hy. by apply (irreflexivity (@lexico jsstring _)) in Hy. }
  inv Ha; inv Hb; [done|by destruct (Hne b)|by destruct (Hne a)|by apply IH].
Qed.

Lemma reverse_sorted recs :
  Sorted created_before recs -> StronglySorted newer_first (reverse recs).
Proof.
  intros Hs. apply Sorted_StronglySorted; [apply _|].
  apply Sorted_reverse in Hs.
  induction Hs as [|x l _ IH Hhd]; constructor; [done|].
  destruct Hhd; constructor. by apply created_before_newer_first.
Qed.

(** A store whose rows were created at different times has one answer to
    [order('createdAt', { ascending: false })]: the newest row first. *)
Lemma order_desc_of_sorted store recs :
  Sorted created_before recs -> store ≡ₚ recs ->
  order_desc store = reverse recs.
Proof.
  intros Hs Hp.
  assert (StronglySorted created_before recs) as Hss
    by (apply Sorted_StronglySorted; [apply _|done]).
  apply (StronglySorted_unique_strong newer_first).
  - intros a b Ha Hb Hab Hba.
    apply (sorted_created_inj recs); [done| | |].
    + by rewrite <-Hp, <-(order_desc_perm store).
    + by apply elem_of_reverse.
    + apply newer_first_spec in Hab as [Hab|?]; [|done].
      apply newer_first_spec in Hba as [Hba|?]; [|done].
      destruct (irreflexivity created_before a). by etrans.
  - apply order_desc_sorted.
  - by apply reverse_sorted.
  - by rewrite order_desc_perm, Hp, reverse_Permutation.
Qed.

End StoreOrder.

(** ** Splitting a verse *)

Section Strings.

Lemma split_not_nil sep s : split sep s <> [].
Proof. destruct s as [|c s]; simpl; [done|]. by repeat case_match. Qed.

Lemma split_head sep pre post :
  sep ∉ pre -> head (split sep (pre ++ sep :: post)) = Some pre.
Proof.
  induction pre as [|c pre IH]; intros Hpre; simpl.
  - by rewrite N.eqb_refl.
  - apply not_elem_of_cons in Hpre as [Hc Hpre].
    destruct (N.eqb_spec c sep) as [->|_]; [done|].
    specialize (IH Hpre). destruct (split sep (pre ++ sep :: post)); naive_solver.
Qed.

Lemma split_without sep s : sep ∉ s -> split sep s = [s].
Proof.
  induction s as [|c s IH]; intros Hs; simpl; [done|].
  apply not_elem_of_cons in Hs as [Hc Hs].
  destruct (N.eqb_spec c sep) as [->|_]; [done|]. by rewrite IH.
Qed.

Lemma or_empty (r : jsstring) :
  match Some r with Some (c :: r') => c :: r' | _ => [] end = r.
Proof. by destruct r. Qed.

End Strings.

Module ReaderFacts.
Import Reader.

(** C10 (as the code has it): for every verse, the reference displayed is the
    part of the verse before the first ['|'], with the white space at both
    ends removed; a verse without ['|'] is displayed whole, trimmed the same
    way. *)
Theorem getVerseRefDisplay_trimmed_prefix (verse : jsstring) :
  (forall pre post, verse = pre ++ bar :: post -> bar ∉ pre ->
     getVerseRefDisplay verse = trim pre) /\
  (bar ∉ verse -> getVerseRefDisplay verse = trim verse).
Proof.
  unfold getVerseRefDisplay. split.
  - intros pre post -> Hpre. by rewrite split_head, or_empty.
  - intros Hv. rewrite split_without by done. simpl. by rewrite or_empty.
Qed.

Lemma getVerseRefDisplay_trimmed_prefix_witness :
  getVerseRefDisplay (js "Psalm 23:1 | The Lord is my shepherd")
    = trim (js "Psalm 23:1 ") /\
  getVerseRefDisplay (js " Psalm 23:1") = trim (js " Psalm 23:1").
Proof.
  split.
  - apply (proj1 (getVerseRefDisplay_trimmed_prefix
                    (js "Psalm 23:1 | The Lord is my shepherd"))
             (js "Psalm 23:1 ") (js " The Lord is my shepherd")).
    + reflexivity.
    + by_evaluation.
  - apply (proj2 (getVerseRefDisplay_trimmed_prefix (js " Psalm 23:1"))).
    by_evaluation.
Defined.

(** C10 (as stated) fails on the verse the admin form suggests: the part
    before the first ['|'] ends with a space, the reference displayed does
    not. *)
Lemma getVerseRefDisplay_not_prefix :
  let verse := js "John 3:16 | For God so loved the world..." in
  let pre := js "John 3:16 " in
  verse = pre ++ bar :: js " For God so loved the world..." /\
  (bar ∉ pre) /\
  getVerseRefDisplay verse = js "John 3:16" /\
  getVerseRefDisplay verse <> pre.
Proof.
  split_and!; [reflexivity| |reflexivity|].
  - by_evaluation.
  - vm_compute. discriminate.
Qed.

(** ** Appending pages *)

Lemma begin_false_pending s :
  pending (loadDevotions_begin false s)
  = pending s ++ [mkRequest false (length (devotions s))
                            (length (devotions s) + pageSize - 1)].
Proof. reflexivity. Qed.

Lemma begin_false_devotions s :
  devotions (loadDevotions_begin false s) = devotions s.
Proof. reflexivity. Qed.

Lemma resume_data_devotions r items s :
  devotions (loadDevotions_resume r (Data items) s)
  = if initial r then items else devotions s ++ items.
Proof.
  unfold loadDevotions_resume. simpl. by destruct (length items <? pageSize).
Qed.

Lemma resume_failure_devotions r s :
  devotions (loadDevotions_resume r Failure s) = devotions s.
Proof. reflexivity. Qed.

Lemma loadNext_unfold resp s :
  loadNext resp s
  = loadDevotions_resume
      (mkRequest false (length (devotions s))
                 (length (devotions s) + pageSize - 1))
      resp (set_loadingMore true s).
Proof.
  unfold loadNext, settle. rewrite begin_false_pending.
  rewrite list_lookup_middle by done.
  replace (delete (length (pending s)) _) with (pending s); [by destruct s|].
  induction (pending s) as [|r l IH]; simpl; [done|]. by rewrite <-IH.
Qed.

Lemma loadNext_devotions items s :
  devotions (loadNext (Data items) s) = devotions s ++ items.
Proof. by rewrite loadNext_unfold, resume_data_devotions. Qed.

Lemma loadNexts_devotions pages s :
  devotions (loadNexts pages s) = devotions s ++ concat pages.
Proof.
  revert s. induction pages as [|p pages IH]; intros s; simpl.
  - by rewrite app_nil_r.
  - unfold loadNexts in *. simpl. by rewrite IH, loadNext_devotions, <-app_assoc.
Qed.

Lemma length_concat_sum (pages : list (list Devotion)) :
  length (concat pages) = sum_list (length <$> pages).
Proof.
  induction pages as [|p pages IH]; simpl; [done|].
  by rewrite length_app, IH.
Qed.

(** C1: after any sequence of successful calls of [loadDevotions(false)] on
    an empty cache, the cache is the concatenation of the pages received, in
    the order they were fetched, and its length is the sum of their sizes. *)
Theorem loadNext_sequence_concat (pages : list (list Devotion)) (s : State) :
  devotions s = [] ->
  devotions (loadNexts pages s) = concat pages /\
  length (devotions (loadNexts pages s)) = sum_list (length <$> pages).
Proof.
  intros Hs. rewrite loadNexts_devotions, Hs. simpl.
  split; [done|]. apply length_concat_sum.
Qed.

Lemma loadNext_sequence_concat_witness :
  let pages := [take 9 Samples.twenty; drop 18 Samples.twenty] in
  devotions setup = [] /\
  devotions (loadNexts pages setup) = concat pages /\
  length (devotions (loadNexts pages setup)) = sum_list (length <$> pages).
Proof.
  split; [reflexivity|].
  apply (loadNext_sequence_concat
           [take 9 Samples.twenty; drop 18 Samples.twenty] setup).
  reflexivity.
Defined.

(** ** The trigger *)

Lemma issued_by_ignored e s : step e s = s -> issued_by e s = [].
Proof. unfold issued_by. intros ->. by rewrite drop_all. Qed.

Lemma hasMore_false_intersect b s :
  hasMore s = false -> step (Intersect b) s = s.
Proof.
  intros H. simpl. unfold onIntersect. rewrite H.
  by rewrite andb_false_r.
Qed.

Lemma hasMore_false_step e s :
  hasMore s = false -> hasMore (step e s) = false.
Proof.
  intros H. destruct e as [b|i resp|d|].
  - by rewrite hasMore_false_intersect.
  - simpl. unfold settle. destruct (pending s !! i); [|done].
    unfold loadDevotions_resume. destruct resp as [items|]; simpl; [|done].
    by destruct (length items <? pageSize).
  - done.
  - done.
Qed.

Lemma hasMore_false_run evs s :
  hasMore s = false -> hasMore (run evs s) = false.
Proof.
  revert s. induction evs as [|e evs IH]; intros s H; [done|].
  apply IH. by apply hasMore_false_step.
Qed.

Lemma settle_short i r items s :
  pending s !! i = Some r -> length items < pageSize ->
  hasMore (settle i (Data items) s) = false.
Proof.
  intros Hr Hlt. unfold settle. rewrite Hr. unfold loadDevotions_resume.
  apply Nat.ltb_lt in Hlt. by rewrite Hlt.
Qed.

(** C3: when a suspended call of [loadDevotions] receives fewer than
    [pageSize] items, [hasMore] becomes false, and from then on it stays
    false whatever happens to the view: every later report of the sentinel
    leaves the state as it is and issues no fetch. *)
Theorem short_page_exhausts (s : State) (i : nat) (r : Request)
    (items : list Devotion) :
  pending s !! i = Some r ->
  length items < pageSize ->
  let s' := step (Settle i (Data items)) s in
  hasMore s' = false /\
  forall evs,
    hasMore (run evs s') = false /\
    forall b, step (Intersect b) (run evs s') = run evs s' /\
              issued_by (Intersect b) (run evs s') = [].
Proof.
  intros Hr Hlt s'.
  assert (hasMore s' = false) as Hs' by (by eapply settle_short).
  split; [done|]. intros evs.
  assert (hasMore (run evs s') = false) as Hrun by (by apply hasMore_false_run).
  split; [done|]. intros b.
  assert (step (Intersect b) (run evs s') = run evs s') as Hb
    by (by apply hasMore_false_intersect).
  split; [done|]. by apply issued_by_ignored.
Qed.

Lemma short_page_exhausts_witness :
  let s' := step (Settle 0 (Data (take 2 Samples.twenty))) mounted in
  hasMore s' = false /\
  forall evs,
    hasMore (run evs s') = false /\
    forall b, step (Intersect b) (run evs s') = run evs s' /\
              issued_by (Intersect b) (run evs s') = [].
Proof.
  apply (short_page_exhausts mounted 0 (mkRequest true 0 8)
           (take 2 Samples.twenty)).
  - reflexivity.
  - vm_compute. lia.
Defined.

(** ** One fetch at a time *)

Lemma view_inv_mounted : view_inv mounted.
Proof. by split. Qed.

Lemma view_inv_step e s :
  view_inv s -> offered e s -> view_inv (step e s).
Proof.
  destruct s as [ds l lm er sel hm bo pend].
  unfold view_inv. simpl. intros [Hp Hsel] Hoff.
  destruct e as [b|i resp|d|]; simpl.
  - unfold onIntersect. simpl.
    destruct b, hm, lm, l; simpl; try done.
    destruct pend as [|r [|]]; simpl; [done| |done].
    destruct (initial r); [by destruct Hp as (? & ? & _)|by destruct Hp].
  - unfold settle. simpl.
    destruct pend as [|r [|]]; [by destruct i| |done].
    destruct i as [|i]; simpl; [|by destruct i].
    unfold loadDevotions_resume.
    destruct resp as [items|]; simpl; [|done].
    assert (forall d, sel = Some d ->
                      d ∈ (if initial r then items else ds ++ items)) as Hin.
    { intros d Hd. destruct (initial r); [by destruct Hp as (_ & _ & -> & _)|].
      apply elem_of_app. left. by apply Hsel. }
    by destruct (length items <? pageSize).
  - split; [|by intros d' [= <-]].
    destruct pend as [|r [|]]; [done| |done].
    destruct (initial r); [|done]. destruct Hp as (_&_&_&->). by inv Hoff.
  - split; [|done].
    destruct pend as [|r [|]]; [done| |done].
    destruct (initial r); [|done]. by destruct Hp as (? & ? & _ & ?).
Qed.

Lemma view_inv_reachable s : reachable s -> view_inv s.
Proof.
  induction 1 as [|s e _ IH Hoff]; [apply view_inv_mounted|by apply view_inv_step].
Qed.

(** C4: in a mounted view at most one call of [loadDevotions] is suspended
    at its fetch; one is suspended exactly when [loading] or [loadingMore]
    is on; and while one is, a report of the sentinel leaves the state as it
    is and issues no fetch. *)
Theorem single_flight (s : State) :
  reachable s ->
  length (pending s) <= 1 /\
  (pending s <> [] <-> loading s || loadingMore s = true) /\
  (pending s <> [] ->
   forall b, step (Intersect b) s = s /\ issued_by (Intersect b) s = []).
Proof.
  intros [Hp _]%view_inv_reachable.
  assert (step (Intersect true) s = s -> forall b, step (Intersect b) s = s)
    as Hany.
  { intros Ht [|]; [done|]. simpl. unfold onIntersect. done. }
  destruct s as [ds l lm er sel hm bo pend]. simpl in *.
  destruct pend as [|r [|]]; [| |done].
  - destruct Hp as [-> ->]. split_and!; [simpl; lia|by split|done].
  - assert (l || lm = true /\ onIntersect true
              (mkState ds l lm er sel hm bo [r])
              = mkState ds l lm er sel hm bo [r]) as [Hflag Hig].
    { unfold onIntersect. simpl.
      destruct (initial r).
      - destruct Hp as (-> & -> & _). by rewrite andb_false_r.
      - destruct Hp as (-> & ->). simpl. by rewrite andb_false_r. }
    split_and!; [simpl; lia|by split|].
    intros _ b. split; [by apply Hany|].
    apply issued_by_ignored. by apply Hany.
Qed.

Lemma single_flight_witness :
  let s := step (Intersect true)
             (step (Settle 0 (fetchPage Samples.twenty 0 8)) mounted) in
  reachable s /\
  length (pending s) <= 1 /\
  (pending s <> [] <-> loading s || loadingMore s = true) /\
  (pending s <> [] ->
   forall b, step (Intersect b) s = s /\ issued_by (Intersect b) s = []).
Proof.
  assert (reachable
            (step (Intersect true)
               (step (Settle 0 (fetchPage Samples.twenty 0 8)) mounted)))
    as Hreach.
  { apply reachable_step; [|exact I].
    apply reachable_step; [|exact I]. apply reachable_mounted. }
  split; [exact Hreach|]. apply single_flight. exact Hreach.
Defined.

(** ** The twenty-record scenario *)

(** C2: with [pageSize = 9] and a store of twenty records created at times
    T1 < ... < T20 ([recs] lists them oldest first, [store] holds them in any
    order), the load on mount asks for rows 0 to 8 and yields T20..T12 with
    [hasMore] still on; the next report of the sentinel asks for rows 9 to 17
    and appends T11..T3, [hasMore] still on; the next asks for rows 18 to 26,
    appends T2 and T1 and turns [hasMore] off; a further report of the
    sentinel changes nothing and issues no fetch. *)
Theorem twenty_records_scenario (recs store : list Devotion) :
  length recs = 20 ->
  Sorted created_before recs ->
  store ≡ₚ recs ->
  let page1 := reverse (drop 11 recs) in
  let page2 := reverse (take 9 (drop 2 recs)) in
  let page3 := reverse (take 2 recs) in
  let s1 := serve store mounted in
  let s2 := serve store (step (Intersect true) s1) in
  let s3 := serve store (step (Intersect true) s2) in
  (pending mounted = [mkRequest true 0 8] /\
   fetchPage store 0 8 = Data page1 /\ length page1 = 9 /\
   devotions s1 = page1 /\ hasMore s1 = true /\ pending s1 = []) /\
  (pending (step (Intersect true) s1) = [mkRequest false 9 17] /\
   fetchPage store 9 17 = Data page2 /\ length page2 = 9 /\
   devotions s2 = page1 ++ page2 /\ hasMore s2 = true /\ pending s2 = []) /\
  (pending (step (Intersect true) s2) = [mkRequest false 18 26] /\
   fetchPage store 18 26 = Data page3 /\ length page3 = 2 /\
   devotions s3 = page1 ++ page2 ++ page3 /\ hasMore s3 = false /\
   pending s3 = []) /\
  (step (Intersect true) s3 = s3 /\ issued_by (Intersect true) s3 = []).
Proof.
  intros Hlen Hs Hp page1 page2 page3 s1 s2 s3.
  pose proof (order_desc_of_sorted store recs Hs Hp) as Ho.
  subst page1 page2 page3 s1 s2 s3. unfold serve, fetchPage. rewrite !Ho.
  clear Ho Hs Hp.
  do 20 (destruct recs as [|? recs]; [done|]).
  destruct recs; [|done].
  split_and!; cbv; reflexivity.
Qed.

Lemma twenty_records_scenario_witness :
  let recs := Samples.twenty in
  let store := reverse (drop 7 Samples.twenty) ++ take 7 Samples.twenty in
  let page1 := reverse (drop 11 recs) in
  let page2 := reverse (take 9 (drop 2 recs)) in
  let page3 := reverse (take 2 recs) in
  let s1 := serve store mounted in
  let s2 := serve store (step (Intersect true) s1) in
  let s3 := serve store (step (Intersect true) s2) in
  (pending mounted = [mkRequest true 0 8] /\
   fetchPage store 0 8 = Data page1 /\ length page1 = 9 /\
   devotions s1 = page1 /\ hasMore s1 = true /\ pending s1 = []) /\
  (pending (step (Intersect true) s1) = [mkRequest false 9 17] /\
   fetchPage store 9 17 = Data page2 /\ length page2 = 9 /\
   devotions s2 = page1 ++ page2 /\ hasMore s2 = true /\ pending s2 = []) /\
  (pending (step (Intersect true) s2) = [mkRequest false 18 26] /\
   fetchPage store 18 26 = Data page3 /\ length page3 = 2 /\
   devotions s3 = page1 ++ page2 ++ page3 /\ hasMore s3 = false /\
   pending s3 = []) /\
  (step (Intersect true) s3 = s3 /\ issued_by (Intersect true) s3 = []).
Proof.
  intros recs store.
  apply (twenty_records_scenario recs store).
  - reflexivity.
  - by_evaluation.
  - by_evaluation.
Defined.

End ReaderFacts.

(** ** The admin dashboard's cache *)

Module AdminFacts.
Import Admin.

Lemma filter_keeps {A} (P : A -> Prop) `{forall x, Decision (P x)} (l : list A) :
  Forall P l -> filter P l = l.
Proof.
  induction 1 as [|x l Hx _ IH]; [done|].
  by rewrite filter_cons_True, IH.
Qed.

Lemma resume_update_devotions devotionDate now s :
  devotions (updateDevotion_resume devotionDate now Accepted s)
  = match list_find (fun d => Some (id d) = editingId s) (devotions s) with
    | Some (index, existing) =>
        <[index := patched existing
                     (mkFields (trim (title s)) (trim (verse s))
                               (trim (content s)) devotionDate)]>
          (devotions s)
    | None => devotions s
    end.
Proof.
  unfold updateDevotion_resume. simpl.
  by destruct (list_find _ (devotions s)) as [[index existing]|].
Qed.

(** What the rest of [updateDevotion] does with the refs as it finds them
    when the answer arrives: the entry of the cache whose id is then in
    [editingId] (ids being unique) is overwritten in place with the trimmed
    title, verse and content then in the form and the date of the call; its
    id and creation time are kept, the list keeps its length and every other
    position its entry.  When no entry has that id the cache stays as it
    is. *)
Lemma updateDevotion_patches_in_place (devotionDate now : jsstring)
    (s : State) (eid : Z) :
  editingId s = Some eid ->
  NoDup (id <$> devotions s) ->
  let s' := updateDevotion_resume devotionDate now Accepted s in
  (forall index existing,
     devotions s !! index = Some existing -> id existing = eid ->
     devotions s' !! index
       = Some (mkDevotion (id existing) (trim (title s)) (trim (verse s))
                          (trim (content s)) devotionDate
                          (createdAt existing)) /\
     length (devotions s') = length (devotions s) /\
     forall j, j <> index -> devotions s' !! j = devotions s !! j) /\
  (eid ∉ id <$> devotions s -> devotions s' = devotions s).
Proof.
  intros Hedit Hnodup s'. subst s'. rewrite resume_update_devotions, Hedit.
  split.
  - intros index existing Hlook <-.
    destruct (list_find _ (devotions s)) as [[i x]|] eqn:Hfind.
    + apply list_find_Some in Hfind as (Hi & [= Hid] & _).
      assert (i = index) as ->.
      { apply (NoDup_lookup (id <$> devotions s) i index (id existing));
          [done|by rewrite list_lookup_fmap, Hi, <-Hid
               |by rewrite list_lookup_fmap, Hlook]. }
      assert (x = existing) as -> by congruence.
      split_and!.
      * apply list_lookup_insert_eq. by eapply lookup_lt_Some.
      * by rewrite length_insert.
      * intros j Hj. by apply list_lookup_insert_ne.
    + apply list_find_None in Hfind.
      rewrite Forall_forall in Hfind.
      destruct (Hfind existing); [by eapply list_elem_of_lookup_2|done].
  - intros Hnot.
    destruct (list_find _ (devotions s)) as [[i x]|] eqn:Hfind; [|done].
    apply list_find_Some in Hfind as (Hi & [= Hid] & _).
    destruct Hnot. rewrite <-Hid.
    apply list_elem_of_fmap_2. by eapply list_elem_of_lookup_2.
Qed.

(** The patch written to the cache is the one sent to the store when the
    form is not touched while the request is under way. *)
Lemma updateDevotion_patch_is_request toISOString s s1 i f :
  updateDevotion_begin toISOString s = (s1, Some (Update i f)) ->
  editingId s1 = Some i /\
  mkFields (trim (title s1)) (trim (verse s1)) (trim (content s1)) (f_date f)
  = f /\
  devotions s1 = devotions s.
Proof.
  unfold updateDevotion_begin.
  destruct (editingId s) as [e|] eqn:He; [|done].
  destruct (e =? 0)%Z; [done|].
  destruct (toISOString _); [|done].
  by intros [= <- <- <-].
Qed.

(** C7: after the store accepts a delete, the cache loses the entry with
    the id of the deleted devotion and nothing else (ids being unique): the
    entries before it and after it stay, in their order.  When no entry has
    that id the cache stays as it is. *)
Theorem deleteDevotion_removes_one (devotion : Devotion) (s : State) :
  NoDup (id <$> devotions s) ->
  let s' := deleteDevotion_resume devotion Accepted s in
  (forall d, d ∈ devotions s -> id d = id devotion ->
     exists l1 l2,
       devotions s = l1 ++ d :: l2 /\
       devotions s' = l1 ++ l2 /\
       length (devotions s') + 1 = length (devotions s)) /\
  (id devotion ∉ id <$> devotions s -> devotions s' = devotions s).
Proof.
  intros Hnodup s'. subst s'. simpl. split.
  - intros d Hd Hid.
    apply list_elem_of_split in Hd as (l1 & l2 & Hl).
    exists l1, l2. rewrite Hl in *. split; [done|].
    rewrite fmap_app, fmap_cons in Hnodup.
    apply NoDup_app in Hnodup as (_ & Hl1 & [Hl2 _]%NoDup_cons).
    assert (filter (fun d0 => id d0 <> id devotion) (l1 ++ d :: l2)
            = l1 ++ l2) as ->.
    { rewrite filter_app, filter_cons_False by (by intros ?).
      rewrite !filter_keeps; [done| |].
      - apply Forall_forall. intros x Hx Hxd. apply Hl2.
        rewrite Hid, <-Hxd. by apply list_elem_of_fmap_2.
      - apply Forall_forall. intros x Hx Hxd.
        apply (Hl1 (id x)); [by apply list_elem_of_fmap_2|].
        rewrite Hxd, <-Hid. by left. }
    split; [done|]. rewrite !length_app. simpl. lia.
  - intros Hnot. apply filter_keeps, Forall_forall.
    intros x Hx Hxd. apply Hnot. rewrite <-Hxd. by apply list_elem_of_fmap_2.
Qed.

Lemma updateDevotion_patches_in_place_witness :
  let s := Samples.editing in
  let s' := updateDevotion_resume (js "2025-02-01T00:00:00.000Z")
                                  Samples.clock Accepted s in
  (forall index existing,
     devotions s !! index = Some existing -> id existing = 2%Z ->
     devotions s' !! index
       = Some (mkDevotion (id existing) (trim (title s)) (trim (verse s))
                          (trim (content s)) (js "2025-02-01T00:00:00.000Z")
                          (createdAt existing)) /\
     length (devotions s') = length (devotions s) /\
     forall j, j <> index -> devotions s' !! j = devotions s !! j) /\
  (2%Z ∉ id <$> devotions s -> devotions s' = devotions s).
Proof.
  apply (updateDevotion_patches_in_place (js "2025-02-01T00:00:00.000Z")
           Samples.clock Samples.editing 2%Z).
  - reflexivity.
  - by_evaluation.
Defined.

(** When nothing touches the form between the request and its answer, the
    cache gets what the store got: the entry with the id of the request is
    overwritten with the fields of the request. *)
Lemma updateDevotion_projects_request toISOString now s s1 i f :
  updateDevotion_begin toISOString s = (s1, Some (Update i f)) ->
  NoDup (id <$> devotions s) ->
  let s' := updateDevotion_resume (f_date f) now Accepted s1 in
  (forall index existing,
     devotions s !! index = Some existing -> id existing = i ->
     devotions s' = <[index := patched existing f]> (devotions s)) /\
  (i ∉ id <$> devotions s -> devotions s' = devotions s).
Proof.
  intros Hbegin Hnodup s'. subst s'.
  destruct (updateDevotion_patch_is_request _ _ _ _ _ Hbegin)
    as (Hedit & Hf & Hds).
  rewrite resume_update_devotions, Hf, Hedit, Hds. split.
  - intros index existing Hlook <-.
    destruct (list_find _ (devotions s)) as [[j x]|] eqn:Hfind.
    + apply list_find_Some in Hfind as (Hj & [= Hid] & _).
      assert (j = index) as ->.
      { apply (NoDup_lookup (id <$> devotions s) j index (id existing));
          [done|by rewrite list_lookup_fmap, Hj, <-Hid
               |by rewrite list_lookup_fmap, Hlook]. }
      by assert (x = existing) as -> by congruence.
    + apply list_find_None in Hfind. rewrite Forall_forall in Hfind.
      destruct (Hfind existing); [by eapply list_elem_of_lookup_2|done].
  - intros Hnot.
    destruct (list_find _ (devotions s)) as [[j x]|] eqn:Hfind; [|done].
    apply list_find_Some in Hfind as (Hj & [= Hid] & _).
    destruct Hnot. rewrite <-Hid.
    apply list_elem_of_fmap_2. by eapply list_elem_of_lookup_2.
Qed.

(** C6 (the code falls short of it): the rest of [updateDevotion] reads
    [editingId] and the form again when the answer arrives.  The admin
    opens the devotion with the id 2, changes title and date and clicks
    Update; the update for the id 2 is sent; before the answer the admin
    clicks Edit on the devotion with the id 3, which the template allows;
    the store accepts.  The entry with the id 2, which the store has
    updated, stays as it was in the cache, and the entry with the id 3,
    which the store has not touched, gets the date of the update. *)
Theorem updateDevotion_patches_entry_under_edit :
  let d1 := Samples.sample 1 "01" in
  let d2 := Samples.sample 2 "02" in
  let d3 := Samples.sample 3 "03" in
  let sent := (Dashboard.clickSubmit MoreSamples.isoOfDate Samples.clock
                 (Dashboard.view MoreSamples.retitled)).2 in
  let s := Dashboard.view MoreSamples.overtaken in
  Dashboard.reachable MoreSamples.isoOfDate MoreSamples.overtaken /\
  devotions (Dashboard.view MoreSamples.retitled) = [d3; d2; d1] /\
  sent = Some (Update 2 (mkFields (js "Grace upon grace") (Model.verse d2)
                                  (Model.content d2)
                                  (js "2030-12-25T00:00:00.000Z"))) /\
  devotions s
  = [mkDevotion 3 (Model.title d3) (Model.verse d3) (Model.content d3)
                (js "2030-12-25T00:00:00.000Z") (createdAt d3);
     d2; d1] /\
  alerts s = [js "Devotion updated successfully."].
Proof.
  split_and!; try (vm_compute; reflexivity).
  pose (iso := MoreSamples.isoOfDate).
  pose (ss1 := Dashboard.step iso (Dashboard.SessionLoaded 0)
                 (Dashboard.mounted Samples.clock)).
  pose (ss2 := Dashboard.step iso
                 (Dashboard.ClickEdit (Samples.sample 2 "02"))
                 MoreSamples.loaded).
  pose (ss3 := Dashboard.step iso
                 (Dashboard.TypeTitle (js "Grace upon grace")) ss2).
  pose (ss4 := Dashboard.step iso (Dashboard.ClickSubmit Samples.clock)
                 MoreSamples.retitled).
  pose (ss5 := Dashboard.step iso
                 (Dashboard.ClickEdit (Samples.sample 3 "03")) ss4).
  assert (Dashboard.reachable iso MoreSamples.loaded) as Hloaded.
  { change MoreSamples.loaded
      with (Dashboard.step iso
              (Dashboard.Loaded 0 (fetchAll (take 3 Samples.twenty))) ss1).
    apply Dashboard.reachable_step; [|exact I].
    apply Dashboard.reachable_step; [|exact I].
    apply Dashboard.reachable_mounted. }
  assert (Dashboard.reachable iso MoreSamples.retitled) as Hretitled.
  { change MoreSamples.retitled
      with (Dashboard.step iso (Dashboard.TypeDate (js "2030-12-25")) ss3).
    apply Dashboard.reachable_step; [|exact I].
    apply Dashboard.reachable_step; [|exact I].
    apply Dashboard.reachable_step; [done|].
    split_and!; [reflexivity..|by_evaluation]. }
  change MoreSamples.overtaken
    with (Dashboard.step iso
            (Dashboard.Acked 0 Accepted Samples.clock) ss5).
  apply Dashboard.reachable_step; [|exact I].
  apply Dashboard.reachable_step;
    [|split_and!; [reflexivity..|by_evaluation]].
  apply Dashboard.reachable_step; [done|reflexivity].
Qed.

Lemma deleteDevotion_removes_one_witness :
  let devotion := Samples.sample 2 "02" in
  let s := Samples.editing in
  let s' := deleteDevotion_resume devotion Accepted s in
  (forall d, d ∈ devotions s -> id d = id devotion ->
     exists l1 l2,
       devotions s = l1 ++ d :: l2 /\
       devotions s' = l1 ++ l2 /\
       length (devotions s') + 1 = length (devotions s)) /\
  (id devotion ∉ id <$> devotions s -> devotions s' = devotions s).
Proof.
  apply (deleteDevotion_removes_one (Samples.sample 2 "02") Samples.editing).
  by_evaluation.
Defined.

(** ** Reloading after a create *)

Lemma order_desc_head store x :
  x ∈ store ->
  (forall d, d ∈ store -> d = x \/ created_before d x) ->
  head (order_desc store) = Some x.
Proof.
  intros Hx Hnew.
  pose proof (order_desc_sorted store) as Hs.
  pose proof (order_desc_perm store) as Hp.
  destruct (order_desc store) as [|y l].
  { apply Permutation_nil_l in Hp. subst. by inv Hx. }
  simpl. f_equal.
  destruct (Hnew y) as [?|Hyx]; [by rewrite <-Hp; left|done|].
  rewrite <-Hp in Hx. inv Hx; [done|].
  apply StronglySorted_inv in Hs as [_ Hhd].
  rewrite Forall_forall in Hhd. by destruct (Hhd x).
Qed.

(** C8: when the store accepts the insert, [createDevotion] leaves the
    cache as it is and starts [loadDevotions]; once the store has answered
    that query the cache is the whole store, newest first, and the record
    just created, its creation time being later than every other, is its
    first entry. *)
Theorem created_devotion_comes_first
    (toISOString : jsstring -> option jsstring) (now now' iso : jsstring)
    (new_id : Z) (rows : list Devotion) (s : State) :
  toISOString (date s) = Some iso ->
  (forall d, d ∈ rows -> lexico (createdAt d) now) ->
  let fields :=
    mkFields (trim (title s)) (trim (verse s)) (trim (content s)) iso in
  let record :=
    mkDevotion new_id (trim (title s)) (trim (verse s)) (trim (content s))
               iso now in
  let s1 := (createDevotion_begin toISOString now s).1 in
  let rows' := store_insert new_id fields now rows in
  let s2 := (createDevotion_resume now' Accepted s1).1 in
  let s3 := loadDevotions_resume (fetchAll rows') s2 in
  (createDevotion_begin toISOString now s).2 = Some (Insert fields now) /\
  (createDevotion_resume now' Accepted s1).2 = Some SelectAll /\
  devotions s2 = devotions s /\
  devotions s3 = order_desc rows' /\
  head (devotions s3) = Some record.
Proof.
  intros Hiso Hnew fields record s1 rows' s2 s3.
  subst s1 s2 s3. unfold createDevotion_begin. simpl. rewrite Hiso. simpl.
  split_and!; [done..|].
  apply order_desc_head.
  - apply elem_of_app. right. by left.
  - intros d [Hd|Hd%list_elem_of_singleton]%elem_of_app; [|by left].
    right. by apply Hnew.
Qed.

Lemma created_devotion_comes_first_witness :
  let s := Samples.composing in
  let now := Samples.clock in
  let iso := js "2025-01-21T00:00:00.000Z" in
  let rows := take 3 Samples.twenty in
  let fields :=
    mkFields (trim (title s)) (trim (verse s)) (trim (content s)) iso in
  let record :=
    mkDevotion 4 (trim (title s)) (trim (verse s)) (trim (content s))
               iso now in
  let s1 := (createDevotion_begin Samples.isoOfInput now s).1 in
  let rows' := store_insert 4 fields now rows in
  let s2 := (createDevotion_resume now Accepted s1).1 in
  let s3 := loadDevotions_resume (fetchAll rows') s2 in
  (createDevotion_begin Samples.isoOfInput now s).2
    = Some (Insert fields now) /\
  (createDevotion_resume now Accepted s1).2 = Some SelectAll /\
  devotions s2 = devotions s /\
  devotions s3 = order_desc rows' /\
  head (devotions s3) = Some record.
Proof.
  intros s now iso rows.
  apply (created_devotion_comes_first Samples.isoOfInput now now iso 4 rows s).
  - reflexivity.
  - apply (proj1 (Forall_forall _ _)).
    by_evaluation.
Defined.

End AdminFacts.

(** ** Failed requests, and deletes seen from the reading view *)

Module SiteFacts.

Lemma failed_fetch_retried (s : Reader.State) :
  let s' := Reader.step (Reader.Settle (length (Reader.pending s)) Failure)
              (Reader.step (Reader.Intersect true) s) in
  Reader.devotions s' = Reader.devotions s /\
  Reader.issued_by (Reader.Intersect true) s'
  = Reader.issued_by (Reader.Intersect true) s.
Proof.
  intros s'. subst s'.
  destruct (Reader.hasMore s && negb (Reader.loadingMore s)
            && negb (Reader.loading s)) eqn:Hg.
  - assert (Reader.step (Reader.Intersect true) s
            = Reader.loadDevotions_begin false s) as ->.
    { simpl. unfold Reader.onIntersect. simpl. by rewrite Hg. }
    change (Reader.step (Reader.Settle ?i ?r) ?x) with (Reader.settle i r x).
    fold (Reader.loadNext Failure s). rewrite ReaderFacts.loadNext_unfold.
    split; [done|].
    unfold Reader.issued_by. simpl. unfold Reader.onIntersect. simpl.
    apply andb_prop in Hg as [[-> ->%negb_true_iff]%andb_prop ->%negb_true_iff].
    done.
  - assert (Reader.step (Reader.Intersect true) s = s) as ->.
    { simpl. unfold Reader.onIntersect. simpl. by rewrite Hg. }
    simpl. unfold Reader.settle.
    by rewrite (lookup_ge_None_2 (Reader.pending s)).
Qed.

(** C5: a request the store fails leaves the cache, and with it the offset
    of the next window, as it was.  In the reading view the rest of
    [loadDevotions] after a failed fetch keeps the cache; a failed fetch
    issued by the sentinel is followed, at the next report of the sentinel,
    by a fetch of the same window; a failed load on mount leaves the cache
    empty as it was set up and the next fetch asks for rows 0 to 8 again.
    In the admin dashboard a failed load, insert, update or delete keeps the
    cache, and a failed insert starts no reload; no call touches the cache
    before its [await], so a call that is refused leaves the cache from its
    first statement to its last as it found it; and in a dashboard at work
    the cache changes at no event but a successful answer of the store. *)
Theorem failed_request_keeps_cache :
  (forall r s,
     Reader.devotions (Reader.loadDevotions_resume r Failure s)
     = Reader.devotions s) /\
  (forall s,
     let s' := Reader.step (Reader.Settle (length (Reader.pending s)) Failure)
                 (Reader.step (Reader.Intersect true) s) in
     Reader.devotions s' = Reader.devotions s /\
     Reader.issued_by (Reader.Intersect true) s'
     = Reader.issued_by (Reader.Intersect true) s) /\
  (let s' := Reader.loadInitial Failure Reader.setup in
   Reader.devotions s' = Reader.devotions Reader.setup /\
   Reader.pending Reader.mounted = [Reader.mkRequest true 0 8] /\
   Reader.issued_by (Reader.Intersect true) s'
   = [Reader.mkRequest false 0 8]) /\
  (forall s,
     Admin.devotions (Admin.loadDevotions_resume Failure s)
     = Admin.devotions s) /\
  (forall now s,
     Admin.devotions (Admin.createDevotion_resume now Rejected s).1
     = Admin.devotions s /\
     (Admin.createDevotion_resume now Rejected s).2 = None) /\
  (forall devotionDate now s,
     Admin.devotions (Admin.updateDevotion_resume devotionDate now Rejected s)
     = Admin.devotions s) /\
  (forall devotion s,
     Admin.devotions (Admin.deleteDevotion_resume devotion Rejected s)
     = Admin.devotions s) /\
  (forall toISOString now confirmed devotion s,
     Admin.devotions (Admin.loadDevotions_begin s).1 = Admin.devotions s /\
     Admin.devotions (Admin.createDevotion_begin toISOString now s).1
     = Admin.devotions s /\
     Admin.devotions (Admin.updateDevotion_begin toISOString s).1
     = Admin.devotions s /\
     Admin.devotions (Admin.deleteDevotion_begin confirmed devotion s).1
     = Admin.devotions s) /\
  (forall toISOString now now' devotionDate confirmed devotion s,
     Admin.devotions
       (Admin.loadDevotions_resume Failure (Admin.loadDevotions_begin s).1)
     = Admin.devotions s /\
     Admin.devotions
       (Admin.createDevotion_resume now' Rejected
          (Admin.createDevotion_begin toISOString now s).1).1
     = Admin.devotions s /\
     Admin.devotions
       (Admin.updateDevotion_resume devotionDate now' Rejected
          (Admin.updateDevotion_begin toISOString s).1)
     = Admin.devotions s /\
     Admin.devotions
       (Admin.deleteDevotion_resume devotion Rejected
          (Admin.deleteDevotion_begin confirmed devotion s).1)
     = Admin.devotions s) /\
  (forall toISOString e ss,
     ~ Dashboard.successful_answer e ->
     Admin.devotions (Dashboard.view (Dashboard.step toISOString e ss))
     = Admin.devotions (Dashboard.view ss)).
Proof.
  assert (forall toISOString now confirmed devotion s,
            Admin.devotions (Admin.loadDevotions_begin s).1
            = Admin.devotions s /\
            Admin.devotions (Admin.createDevotion_begin toISOString now s).1
            = Admin.devotions s /\
            Admin.devotions (Admin.updateDevotion_begin toISOString s).1
            = Admin.devotions s /\
            Admin.devotions
              (Admin.deleteDevotion_begin confirmed devotion s).1
            = Admin.devotions s) as Hbegin.
  { intros toISOString now confirmed devotion s.
    unfold Admin.createDevotion_begin, Admin.updateDevotion_begin,
      Admin.deleteDevotion_begin. simpl.
    split_and!; [done| | |by destruct confirmed].
    - by destruct (toISOString (Admin.date s)).
    - destruct (Admin.editingId s) as [i|]; [|done].
      destruct (i =? 0)%Z; [done|]. simpl.
      by destruct (toISOString (Admin.date s)). }
  split_and!; try done.
  - apply failed_fetch_retried.
  - intros toISOString now now' devotionDate confirmed devotion s.
    destruct (Hbegin toISOString now confirmed devotion s)
      as (Hl & Hc & Hu & Hd).
    split_and!; simpl; [done|by rewrite Hc|by rewrite Hu|by rewrite Hd].
  - intros toISOString e [s cs] He.
    destruct (Hbegin toISOString [] true (mkDevotion 0 [] [] [] [] []) s)
      as (_ & _ & Hu & _).
    destruct e as [v|v|v|v|now|d|now|d conf|i|i resp|i ack now];
      simpl in *; try done.
    + unfold Dashboard.clickSubmit.
      destruct (Dashboard.truthy (Admin.editingId s)); [done|].
      unfold Admin.createDevotion_begin. simpl.
      by destruct (toISOString (Admin.date s)).
    + by destruct conf.
    + by destruct (cs !! i) as [[]|].
    + destruct (cs !! i) as [[]|]; try done. by destruct resp.
    + destruct ack; [done|].
      by destruct (cs !! i) as [[]|].
Qed.

Lemma failed_request_keeps_cache_witness :
  let ss := MoreSamples.publishing in
  let e := Dashboard.Acked 0 Rejected Samples.clock in
  Dashboard.calls ss = [Dashboard.Creating] /\
  Admin.devotions (Dashboard.view (Dashboard.step Samples.isoOfInput e ss))
  = Admin.devotions (Dashboard.view ss).
Proof.
  intros ss e. split; [reflexivity|].
  destruct failed_request_keeps_cache
    as (_ & _ & _ & _ & _ & _ & _ & _ & _ & Hevent).
  apply (Hevent Samples.isoOfInput e ss). intros [].
Defined.

(** C9 (as stated) fails: a reader has a devotion open, the admin deletes
    it and the store accepts; the devotion is gone from the store and from
    the dashboard's cache, and the reader's modal is still open on it. *)
Lemma delete_leaves_modal_open :
  let d := Samples.sample 2 "02" in
  let w := Samples.opened in
  let w' := site_delete d w in
  Reader.reachable (reader w) /\
  Reader.selectedDevotion (reader w) = Some d /\
  d ∈ Admin.devotions (admin w) /\
  (d ∉ store w') /\
  (d ∉ Admin.devotions (admin w')) /\
  Reader.selectedDevotion (reader w') = Some d /\
  Reader.bodyOverflow (reader w') = js "hidden".
Proof.
  split_and!; try reflexivity.
  - apply (Reader.reachable_step _ (Reader.Open _)).
    + apply (Reader.reachable_step _ (Reader.Settle 0 _)); [|exact I].
      apply Reader.reachable_mounted.
    + unfold Reader.offered. by_evaluation.
  - by_evaluation.
  - by_evaluation.
  - by_evaluation.
Qed.

End SiteFacts.

(** ** Verse display, previews and bookmarks *)

Module DisplayFacts.
Import Reader Display.

Lemma split_cons_sep sep pre post :
  sep ∉ pre -> split sep (pre ++ sep :: post) = pre :: split sep post.
Proof.
  induction pre as [|c pre IH]; intros Hpre; simpl.
  - by rewrite N.eqb_refl.
  - apply not_elem_of_cons in Hpre as [Hc Hpre].
    destruct (N.eqb_spec c sep) as [->|_]; [done|]. by rewrite IH.
Qed.

Lemma split_pieces sep s : Forall (fun p => sep ∉ p) (split sep s).
Proof.
  induction s as [|c s IH]; simpl.
  - repeat constructor. by intros ?%elem_of_nil.
  - destruct (N.eqb_spec c sep) as [->|Hc].
    + constructor; [by intros ?%elem_of_nil|done].
    + destruct (split sep s) as [|p ps]; [repeat constructor|].
      * by intros [?|?%elem_of_nil]%elem_of_cons.
      * inv IH. constructor; [|done].
        by intros [?|?]%elem_of_cons.
Qed.

(** Splitting at a separator and joining with it gives the string back; no
    piece contains the separator. *)
Lemma join_split (sep : N) (s : jsstring) :
  join sep (split sep s) = s /\ Forall (fun p => sep ∉ p) (split sep s).
Proof.
  split; [|apply split_pieces].
  induction s as [|c s IH]; simpl; [done|].
  destruct (N.eqb_spec c sep) as [->|Hc].
  - destruct (split sep s) as [|p ps] eqn:Hs; [by destruct (split_not_nil sep s)|].
    simpl in *. by rewrite IH.
  - destruct (split sep s) as [|p ps] eqn:Hs; [by destruct (split_not_nil sep s)|].
    simpl in *. destruct ps; by rewrite <-IH.
Qed.

(** X1: The tooltip of a verse is what follows the first ['|'], later ['|']
    included, trimmed; a verse without ['|'] is its own tooltip, trimmed. *)
Theorem getVerseTooltipText_after_bar (verse : jsstring) :
  (forall pre post, verse = pre ++ bar :: post -> bar ∉ pre ->
     getVerseTooltipText verse = trim post) /\
  (bar ∉ verse ->
     getVerseTooltipText verse = trim verse /\
     getVerseTooltipText verse = getVerseRefDisplay verse).
Proof.
  unfold getVerseTooltipText, getVerseRefDisplay. split.
  - intros pre post -> Hpre. rewrite split_cons_sep by done.
    assert ((1 <? length (pre :: split bar post)) = true) as ->.
    { pose proof (split_not_nil bar post). by destruct (split bar post). }
    change (drop 1 (pre :: split bar post)) with (split bar post).
    by rewrite (proj1 (join_split bar post)).
  - intros Hv. rewrite split_without by done. simpl. by rewrite or_empty.
Qed.

Lemma getVerseTooltipText_after_bar_witness :
  getVerseTooltipText (js "John 3:16 | For God | so loved")
    = trim (js " For God | so loved") /\
  getVerseTooltipText (js " Psalm 23:1") = trim (js " Psalm 23:1") /\
  getVerseTooltipText (js " Psalm 23:1") = getVerseRefDisplay (js " Psalm 23:1").
Proof.
  split.
  - apply (proj1 (getVerseTooltipText_after_bar
                    (js "John 3:16 | For God | so loved"))
             (js "John 3:16 ") (js " For God | so loved")).
    + reflexivity.
    + by_evaluation.
  - apply (proj2 (getVerseTooltipText_after_bar (js " Psalm 23:1"))).
    by_evaluation.
Defined.

(** *** Trimming *)

Lemma trimStart_spec s :
  exists a, s = a ++ trimStart s /\
            Forall (fun c => isWhiteSpace c = true) a /\
            forall c, head (trimStart s) = Some c -> isWhiteSpace c = false.
Proof.
  induction s as [|c s (a & Hs & Ha & Hh)]; simpl.
  - by exists [].
  - destruct (isWhiteSpace c) eqn:Hc.
    + exists (c :: a). split_and!; [by rewrite Hs at 1|by constructor|done].
    + exists []. split_and!; [done|constructor|by intros ? [= <-]].
Qed.

Lemma trimStart_last s c :
  last (trimStart s) = Some c -> last s = Some c.
Proof.
  destruct (trimStart_spec s) as (a & Hs & _ & _). intros Hl.
  rewrite Hs, last_app, Hl. done.
Qed.

Lemma head_rev (s : jsstring) : head (rev s) = last s.
Proof. rewrite rev_alt. apply head_reverse. Qed.

Lemma last_rev (s : jsstring) : last (rev s) = head s.
Proof. rewrite rev_alt. apply last_reverse. Qed.

(** [trim] cuts white space off both ends and nothing else. *)
Lemma trim_spec s :
  exists a b,
    s = a ++ trim s ++ b /\
    Forall (fun c => isWhiteSpace c = true) a /\
    Forall (fun c => isWhiteSpace c = true) b /\
    (forall c, head (trim s) = Some c -> isWhiteSpace c = false) /\
    (forall c, last (trim s) = Some c -> isWhiteSpace c = false).
Proof.
  unfold trim, trimEnd.
  destruct (trimStart_spec s) as (a & Hs & Ha & Hh).
  destruct (trimStart_spec (rev (trimStart s))) as (b & Hr & Hb & Hhr).
  exists a, (rev b). split_and!.
  - rewrite Hs at 1. f_equal.
    rewrite <-rev_app_distr, <-Hr. by rewrite rev_involutive.
  - done.
  - apply Forall_forall. intros c Hc. rewrite Forall_forall in Hb.
    apply Hb. by rewrite list_elem_of_In, in_rev, <-list_elem_of_In.
  - intros c Hc. apply Hh. rewrite head_rev in Hc.
    apply trimStart_last in Hc. by rewrite last_rev in Hc.
  - intros c Hc. apply Hhr. by rewrite last_rev in Hc.
Qed.

Lemma trim_elem_of s c : c ∈ trim s -> c ∈ s.
Proof.
  destruct (trim_spec s) as (a & b & Hs & _). intros Hc.
  rewrite Hs, !elem_of_app. auto.
Qed.

Lemma split_head_pieces sep s p : head (split sep s) = Some p -> sep ∉ p.
Proof.
  intros Hp. pose proof (split_pieces sep s) as Hall.
  destruct (split sep s); simplify_eq/=. by inv Hall.
Qed.

(** X2: The reference displayed never starts or ends with white space and never
    contains ['|'], whatever the verse. *)
Theorem getVerseRefDisplay_clean (verse : jsstring) :
  (bar ∉ getVerseRefDisplay verse) /\
  (forall c, head (getVerseRefDisplay verse) = Some c ->
             isWhiteSpace c = false) /\
  (forall c, last (getVerseRefDisplay verse) = Some c ->
             isWhiteSpace c = false).
Proof.
  unfold getVerseRefDisplay.
  destruct (head (split bar verse)) as [p|] eqn:Hp.
  - rewrite or_empty.
    destruct (trim_spec p) as (_ & _ & _ & _ & _ & Hh & Hl).
    split_and!; [|done..].
    intros Hin%trim_elem_of. by apply (split_head_pieces bar verse p).
  - destruct (trim_spec []) as (_ & _ & _ & _ & _ & Hh & Hl).
    split_and!; [|done..]. by intros ?%trim_elem_of%elem_of_nil.
Qed.

Lemma getVerseRefDisplay_clean_witness :
  let verse := js "  John 3:16  | For God so loved the world..." in
  (bar ∉ getVerseRefDisplay verse) /\
  (forall c, head (getVerseRefDisplay verse) = Some c ->
             isWhiteSpace c = false) /\
  (forall c, last (getVerseRefDisplay verse) = Some c ->
             isWhiteSpace c = false).
Proof.
  apply (getVerseRefDisplay_clean
           (js "  John 3:16  | For God so loved the world...")).
Defined.

(** Trimming is idempotent: what the forms send is stable under a second
    trim. *)
Lemma trim_trim s : trim (trim s) = trim s.
Proof.
  destruct (trim_spec s) as (_ & _ & _ & _ & _ & Hh & Hl).
  generalize dependent (trim s). clear s. intros t Hh Hl.
  unfold trim, trimEnd.
  assert (trimStart t = t) as ->.
  { destruct t as [|c t]; [done|]. simpl. by rewrite (Hh c). }
  assert (trimStart (rev t) = rev t) as ->.
  { destruct (rev t) as [|c r] eqn:Hr; [done|]. simpl.
    rewrite (Hl c); [done|]. by rewrite <-head_rev, Hr. }
  apply rev_involutive.
Qed.

(** *** Previews *)

(** X3: A preview is the plain text itself when that has at most [len] code
    units, and otherwise its first [len] code units followed by one
    ellipsis; it never has more than [len + 1] code units. *)
Theorem getPreview_bounded (getPlainText : jsstring -> jsstring)
    (devotion : Devotion) (len : nat) :
  let text := getPlainText (content devotion) in
  let preview := getPreview getPlainText devotion len in
  length preview <= len + 1 /\
  (length text <= len -> preview = text) /\
  (len < length text ->
   preview = take len text ++ [ellipsis] /\ length preview = len + 1).
Proof.
  intros text preview. subst preview. unfold getPreview. fold text.
  destruct (Nat.leb_spec (length text) len) as [Hle|Hlt].
  - split_and!; [lia|done|lia].
  - assert (length (take len text ++ [ellipsis]) = len + 1) as Hlen.
    { rewrite length_app, length_take. simpl. lia. }
    split_and!; [lia|lia|done].
Qed.

Lemma getPreview_bounded_witness :
  let getPlainText := fun html : jsstring => trim html in
  let devotion := Samples.sample 1 "01" in
  let text := getPlainText (content devotion) in
  let preview := getPreview getPlainText devotion 10 in
  length preview <= 10 + 1 /\
  (length text <= 10 -> preview = text) /\
  (10 < length text ->
   preview = take 10 text ++ [ellipsis] /\ length preview = 10 + 1).
Proof.
  intros getPlainText devotion.
  apply (getPreview_bounded getPlainText devotion 10).
Defined.

(** *** Bookmarks *)

(** X4: Toggling a bookmark flips the membership of that id, leaves every other
    id as it was, and toggling twice restores the set. *)
Theorem toggleBookmark_flips (i : Z) (bookmarked : gset Z) :
  (i ∈ toggleBookmark i bookmarked <-> i ∉ bookmarked) /\
  (forall j, j <> i ->
             (j ∈ toggleBookmark i bookmarked <-> j ∈ bookmarked)) /\
  toggleBookmark i (toggleBookmark i bookmarked) = bookmarked.
Proof.
  unfold toggleBookmark.
  destruct (decide (i ∈ bookmarked)) as [Hi|Hi].
  - split_and!; [set_solver|set_solver|].
    rewrite decide_False by set_solver.
    apply set_eq. intros j. destruct (decide (j = i)); set_solver.
  - split_and!; [set_solver|set_solver|].
    rewrite decide_True by set_solver. set_solver.
Qed.

Lemma toggleBookmark_flips_witness :
  let bookmarked : gset Z := {[ 3%Z; 7%Z ]} in
  (7%Z ∈ toggleBookmark 7 bookmarked <-> 7%Z ∉ bookmarked) /\
  (forall j, j <> 7%Z ->
             (j ∈ toggleBookmark 7 bookmarked <-> j ∈ bookmarked)) /\
  toggleBookmark 7 (toggleBookmark 7 bookmarked) = bookmarked.
Proof. apply (toggleBookmark_flips 7 {[ 3%Z; 7%Z ]}). Defined.

End DisplayFacts.

(** ** Runs of the reading view *)

Module ScrollFacts.
Import Reader Display Scroll.

Lemma reaches_reachable s s' : reachable s -> reaches s s' -> reachable s'.
Proof. induction 2; [done|by apply reachable_step]. Qed.

Lemma loaded_step e s :
  view_inv s -> loading s = false -> offered e s ->
  devotions s `prefix_of` devotions (step e s) /\ loading (step e s) = false.
Proof.
  destruct s as [ds l lm er sel hm bo pend].
  unfold view_inv. simpl. intros [Hp _] -> Hoff.
  destruct e as [b|i resp|d|]; simpl; [| |done..].
  - unfold onIntersect. simpl. by destruct b, hm, lm.
  - unfold settle. simpl.
    destruct pend as [|r [|]]; [by destruct i| |done].
    destruct i as [|i]; simpl; [|by destruct i].
    unfold loadDevotions_resume.
    destruct (initial r) eqn:Hr; [by destruct Hp|].
    destruct resp as [items|]; simpl; [|done].
    split; [|by destruct (length items <? pageSize)].
    destruct (length items <? pageSize); simpl; by apply prefix_app_r.
Qed.

Lemma resume_pending r resp s :
  pending (loadDevotions_resume r resp s) = pending s.
Proof.
  unfold loadDevotions_resume. destruct resp as [items|]; simpl; [|done].
  by destruct (length items <? pageSize).
Qed.

(** X5: Once the first page is in, the cache only grows at its end: whatever
    happens to the view afterwards, what was loaded stays where it is, and
    today's devotion, once there is one, stays the same. *)
Theorem cache_only_grows (s s' : State) :
  reachable s -> loading s = false -> reaches s s' ->
  devotions s `prefix_of` devotions s' /\
  (devotions s <> [] -> todaysDevotion s' = todaysDevotion s).
Proof.
  intros Hreach Hload Hrun.
  assert (devotions s `prefix_of` devotions s' /\ loading s' = false)
    as [[items Hpre] _].
  { induction Hrun as [|s' e Hrun [IHp IHl] Hoff]; [done|].
    destruct (loaded_step e s') as [Hp Hl];
      [by eapply ReaderFacts.view_inv_reachable, reaches_reachable|done..|].
    split; [by etrans|done]. }
  split; [by exists items|].
  unfold todaysDevotion. rewrite Hpre. by destruct (devotions s).
Qed.

Lemma cache_only_grows_witness :
  let s := serve Samples.twenty mounted in
  let s' := scrollRound Samples.twenty s in
  reachable s /\ reaches s s' /\
  devotions s `prefix_of` devotions s' /\
  (devotions s <> [] -> todaysDevotion s' = todaysDevotion s).
Proof.
  intros s s'.
  assert (reachable s) as Hs.
  { apply (reachable_step _ (Settle 0 _)); [|exact I].
    apply reachable_mounted. }
  assert (reaches s s') as Hrun.
  { apply (reaches_step _ _ (Settle 0 _)); [|exact I].
    apply (reaches_step _ _ (Intersect true)); [|exact I].
    apply reaches_here. }
  split; [exact Hs|]. split; [exact Hrun|].
  apply (cache_only_grows s s'); [exact Hs|reflexivity|exact Hrun].
Defined.

(** X6: Every fetch under way in a mounted reading view asks for the window
    that starts at the length of the cache and has [pageSize] positions:
    [from = devotions.length] and [to = from + pageSize - 1]. *)
Theorem window_follows_cache (s : State) (r : Request) :
  reachable s -> r ∈ pending s ->
  from r = length (devotions s) /\
  to r = length (devotions s) + pageSize - 1.
Proof.
  intros Hreach. revert r.
  induction Hreach as [|s e Hreach IH Hoff]; intros r Hr.
  { by apply list_elem_of_singleton in Hr as ->. }
  pose proof (ReaderFacts.view_inv_reachable s Hreach) as [Hp _].
  destruct e as [b|i resp|d|]; simpl in *; [| |by apply IH..].
  - unfold onIntersect in *.
    destruct (b && hasMore s && negb (loadingMore s) && negb (loading s));
      [|by apply IH].
    rewrite ReaderFacts.begin_false_pending in Hr.
    rewrite ReaderFacts.begin_false_devotions.
    apply elem_of_app in Hr as [Hr|Hr]; [by apply IH|].
    by apply list_elem_of_singleton in Hr as ->.
  - unfold settle in *.
    destruct (pending s !! i) as [r'|] eqn:Hi; [|by apply IH].
    rewrite resume_pending in Hr. simpl in Hr.
    destruct (pending s) as [|r0 [|]]; [done| |done].
    destruct i as [|i]; [|by destruct i].
    by apply elem_of_nil in Hr.
Qed.

Lemma window_follows_cache_witness :
  let s := step (Intersect true) (serve Samples.twenty mounted) in
  let r := mkRequest false 9 17 in
  reachable s /\ r ∈ pending s /\
  from r = length (devotions s) /\
  to r = length (devotions s) + pageSize - 1.
Proof.
  intros s r.
  assert (reachable s) as Hs.
  { apply (reachable_step _ (Intersect true)); [|exact I].
    apply (reachable_step _ (Settle 0 _)); [|exact I].
    apply reachable_mounted. }
  assert (r ∈ pending s) as Hr by (vm_compute; constructor).
  split; [exact Hs|]. split; [exact Hr|].
  apply (window_follows_cache s r); [exact Hs|exact Hr].
Defined.

(** X7: When nothing is under way and [hasMore] is on, a report of the sentinel
    issues exactly one fetch, for the rows that follow the cache, and turns
    [loadingMore] on. *)
Theorem idle_sentinel_fetches (s : State) :
  reachable s -> pending s = [] -> hasMore s = true ->
  issued_by (Intersect true) s
  = [mkRequest false (length (devotions s))
               (length (devotions s) + pageSize - 1)] /\
  loadingMore (step (Intersect true) s) = true.
Proof.
  intros [Hp _]%ReaderFacts.view_inv_reachable Hpend Hmore.
  rewrite Hpend in Hp. destruct Hp as [Hl Hlm].
  unfold issued_by. simpl. unfold onIntersect. rewrite Hmore, Hl, Hlm. simpl.
  by rewrite Hpend.
Qed.

Lemma idle_sentinel_fetches_witness :
  let s := serve Samples.twenty mounted in
  reachable s /\
  issued_by (Intersect true) s
  = [mkRequest false (length (devotions s))
               (length (devotions s) + pageSize - 1)] /\
  loadingMore (step (Intersect true) s) = true.
Proof.
  intros s.
  assert (reachable s) as Hs.
  { apply (reachable_step _ (Settle 0 _)); [|exact I].
    apply reachable_mounted. }
  split; [exact Hs|].
  apply (idle_sentinel_fetches s); [exact Hs|reflexivity|reflexivity].
Defined.

Lemma load_error_step e s : error s = load_error -> error (step e s) = load_error.
Proof.
  intros He. destruct e as [b|i resp|d|]; simpl; [| |done..].
  - unfold onIntersect. by destruct (_ && _).
  - unfold settle. destruct (pending s !! i); [|done].
    unfold loadDevotions_resume. destruct resp as [items|]; simpl; [|done].
    by destruct (length items <? pageSize).
Qed.

(** X8: The reading view never takes its error message back: once a fetch has
    failed the message stays, whatever follows, later successful fetches
    included. *)
Theorem load_error_stays (s : State) (i : nat) (r : Request)
    (evs : list Event) :
  pending s !! i = Some r ->
  error (run evs (step (Settle i Failure) s))
  = Some (js "Unable to load devotions. Please try again later.").
Proof.
  intros Hr.
  assert (error (step (Settle i Failure) s) = load_error) as Hfail.
  { simpl. unfold settle. by rewrite Hr. }
  revert Hfail. generalize (step (Settle i Failure) s). clear.
  induction evs as [|e evs IH]; intros s Hs; [done|].
  simpl. apply IH. by apply load_error_step.
Qed.

Lemma load_error_stays_witness :
  error (run [Intersect true; Settle 0 (fetchPage Samples.twenty 0 8)]
           (step (Settle 0 Failure) mounted))
  = Some (js "Unable to load devotions. Please try again later.").
Proof.
  apply (load_error_stays mounted 0 (mkRequest true 0 8)
           [Intersect true; Settle 0 (fetchPage Samples.twenty 0 8)]).
  reflexivity.
Defined.

(** *** Scrolling to the end of a store *)

Lemma serve_mounted store :
  serve store mounted
  = atRest (take pageSize (order_desc store))
           (negb (length (take pageSize (order_desc store)) <? pageSize)).
Proof.
  unfold serve, settle, fetchPage, range, loadDevotions_resume. simpl.
  change pageSize with 9. rewrite drop_0.
  by destruct (length (take 9 (order_desc store)) <? 9).
Qed.

Lemma scrollRound_more store c :
  scrollRound store (atRest c true)
  = let items := take pageSize (drop (length c) (order_desc store)) in
    atRest (c ++ items) (negb (length items <? pageSize)).
Proof.
  unfold scrollRound, serve, settle, fetchPage, range, loadDevotions_resume.
  simpl. change pageSize with 9.
  replace (length c + 9 - 1 + 1 - length c) with 9 by lia.
  by destruct (length (take 9 (drop (length c) (order_desc store))) <? 9).
Qed.

Lemma take_page (rows : list Devotion) m :
  m + pageSize <= length rows ->
  length (take pageSize (drop (length (take m rows)) rows)) = pageSize /\
  take m rows ++ take pageSize (drop (length (take m rows)) rows)
  = take (m + pageSize) rows.
Proof.
  intros Hm. rewrite !length_take, length_drop.
  replace (m `min` length rows) with m by lia.
  split; [lia|apply take_take_drop].
Qed.

Lemma take_rest (rows : list Devotion) m :
  m <= length rows < m + pageSize ->
  length (take pageSize (drop (length (take m rows)) rows)) < pageSize /\
  take m rows ++ take pageSize (drop (length (take m rows)) rows) = rows.
Proof.
  intros Hm. rewrite !length_take, length_drop.
  replace (m `min` length rows) with m by lia.
  split; [lia|]. rewrite take_take_drop. apply take_ge. lia.
Qed.

Lemma scrolled_0 store : scrolled store 0 = serve store mounted.
Proof. reflexivity. Qed.

Lemma scrolled_S store k :
  scrolled store (S k) = scrollRound store (scrolled store k).
Proof. reflexivity. Qed.

Lemma scrolled_full_pages store k :
  pageSize * (k + 1) <= length store ->
  scrolled store k = atRest (take (pageSize * (k + 1)) (order_desc store)) true.
Proof.
  pose proof (Permutation_length (order_desc_perm store)) as Hlen.
  induction k as [|k IH]; intros Hk.
  - rewrite scrolled_0, serve_mounted.
    rewrite length_take.
    replace (pageSize `min` length (order_desc store)) with pageSize by lia.
    rewrite Nat.ltb_irrefl.
    by replace (pageSize * (0 + 1)) with pageSize by lia.
  - rewrite scrolled_S, IH by lia.
    rewrite scrollRound_more. cbv zeta.
    destruct (take_page (order_desc store) (pageSize * (k + 1))) as [Hl Happ];
      [lia|].
    rewrite Hl, Happ, Nat.ltb_irrefl. f_equal. f_equal. lia.
Qed.

Lemma scrolled_last_round store :
  scrolled store (length store / pageSize) = atRest (order_desc store) false.
Proof.
  pose proof (Permutation_length (order_desc_perm store)) as Hlen.
  pose proof (Nat.Div0.mul_div_le (length store) pageSize) as Hle.
  pose proof (Nat.mul_succ_div_gt (length store) pageSize) as Hgt.
  destruct (length store / pageSize) as [|k] eqn:Hq.
  - rewrite scrolled_0, serve_mounted.
    rewrite length_take, take_ge by (unfold pageSize in *; lia).
    by replace (pageSize `min` length (order_desc store) <? pageSize)
      with true by (symmetry; apply Nat.ltb_lt; unfold pageSize in *; lia).
  - rewrite scrolled_S, scrolled_full_pages by (unfold pageSize in *; lia).
    rewrite scrollRound_more. cbv zeta.
    destruct (take_rest (order_desc store) (pageSize * (k + 1))) as [Hl Happ];
      [unfold pageSize in *; lia|].
    rewrite Happ. apply Nat.ltb_lt in Hl. by rewrite Hl.
Qed.

(** X9: Scrolling down a store that does not change loads all of it: after the
    load on mount and [k] reports of the sentinel the cache holds the first
    [pageSize * (k + 1)] rows, newest first, as long as that many exist;
    from round [length store / pageSize] on it holds every row, [hasMore] is
    off, and further reports change nothing. *)
Theorem scroll_loads_whole_store (store : list Devotion) (k : nat) :
  (pageSize * (k + 1) <= length store ->
   scrolled store k
   = atRest (take (pageSize * (k + 1)) (order_desc store)) true) /\
  (length store / pageSize <= k ->
   scrolled store k = atRest (order_desc store) false).
Proof.
  split; [apply scrolled_full_pages|].
  intros Hk. replace k with ((k - length store / pageSize)
                             + length store / pageSize) by lia.
  induction (k - length store / pageSize) as [|j IH].
  - apply scrolled_last_round.
  - change (S j + length store / pageSize)
      with (S (j + length store / pageSize)).
    rewrite scrolled_S, IH. reflexivity.
Qed.

Lemma scroll_loads_whole_store_witness :
  let store := reverse Samples.twenty in
  (pageSize * (1 + 1) <= length store ->
   scrolled store 1
   = atRest (take (pageSize * (1 + 1)) (order_desc store)) true) /\
  (length store / pageSize <= 2 ->
   scrolled store 2 = atRest (order_desc store) false).
Proof.
  intros store. split.
  - apply (proj1 (scroll_loads_whole_store store 1)).
  - apply (proj2 (scroll_loads_whole_store store 2)).
Defined.

End ScrollFacts.

(** ** The admin dashboard at work *)

Module DashboardFacts.
Import Admin Dashboard.

Lemma submits_app l k : submits (l ++ k) = submits l ++ submits k.
Proof. apply filter_app. Qed.

Lemma submits_delete_other i c l :
  l !! i = Some c -> is_submit c = false ->
  submits (delete i l) = submits l.
Proof.
  intros Hi Hc. rewrite <-(take_drop_middle l i c Hi) at 2.
  rewrite delete_take_drop. unfold submits.
  rewrite !filter_app, filter_cons_False; [done|]. by rewrite Hc.
Qed.

Lemma submits_delete_submit i c l :
  l !! i = Some c -> is_submit c = true ->
  length (submits l) = S (length (submits (delete i l))).
Proof.
  intros Hi Hc. rewrite <-(take_drop_middle l i c Hi) at 1.
  rewrite delete_take_drop. unfold submits.
  rewrite !filter_app, filter_cons_True by done.
  rewrite !length_app. simpl. lia.
Qed.

Section WithDates.

Variable toISOString : jsstring -> option jsstring.

Lemma clickSubmit_cases now s :
  let out := clickSubmit toISOString now s in
  (out = (s, None)) \/
  (submitting out.1 = true /\ length (submitted out.2) <= 1).
Proof.
  unfold clickSubmit, updateDevotion_begin, createDevotion_begin.
  destruct (truthy (editingId s)).
  - destruct (editingId s) as [i|]; [|by left].
    destruct (i =? 0)%Z; [by left|]. right.
    simpl. destruct (toISOString (date s)); simpl; split; (done || lia).
  - right. simpl. destruct (toISOString (date s)); simpl; split; (done || lia).
Qed.

Lemma submit_inv_step e ss :
  submit_inv ss -> offered e ss -> submit_inv (step toISOString e ss).
Proof.
  destruct ss as [s cs]. unfold submit_inv. simpl. intros Hinv Hoff.
  destruct e as [v|v|v|v|now|d|now|d conf|i|i resp|i ack now];
    simpl in *; try done.
  - rewrite Hoff in Hinv.
    destruct (clickSubmit_cases now s) as [->|[Hsub Hlen]]; simpl.
    + by rewrite app_nil_r, Hoff.
    + rewrite Hsub, submits_app, Hinv. simpl.
      destruct (clickSubmit toISOString now s).2 as [[]|]; simpl; lia.
  - destruct conf; simpl; [|by rewrite app_nil_r].
    by rewrite submits_app, app_nil_r.
  - destruct (cs !! i) as [[]|] eqn:Hi; try done. simpl.
    rewrite submits_app, app_nil_r.
    by rewrite (submits_delete_other i LoadingSession).
  - destruct (cs !! i) as [[]|] eqn:Hi; try done. simpl.
    rewrite (submits_delete_other i Loading) by done.
    by destruct resp.
  - destruct (cs !! i) as [c|] eqn:Hi; [|done].
    destruct c as [| | |dd|d]; try done; simpl.
    + pose proof (submits_delete_submit i Creating cs Hi eq_refl) as Hlen.
      destruct (submitting s); [|by rewrite Hinv in Hlen].
      assert (submits (delete i cs) = []) as Hnil
        by (apply length_zero_iff_nil; lia).
      destruct ack; simpl; by rewrite submits_app, Hnil.
    + pose proof (submits_delete_submit i (Updating dd) cs Hi eq_refl) as Hlen.
      destruct (submitting s); [|by rewrite Hinv in Hlen].
      assert (submits (delete i cs) = []) as Hnil
        by (apply length_zero_iff_nil; lia).
      by destruct ack.
    + rewrite (submits_delete_other i (Deleting d)) by done.
      by destruct ack.
Qed.

Lemma submit_inv_reachable ss : reachable toISOString ss -> submit_inv ss.
Proof.
  induction 1 as [now|ss e _ IH Hoff]; [done|by apply submit_inv_step].
Qed.

Lemma session_reaches_reachable ss ss' :
  reachable toISOString ss -> reaches toISOString ss ss' ->
  reachable toISOString ss'.
Proof. induction 2; [done|by apply reachable_step]. Qed.

(** X10: The submit button cannot send twice: in a mounted dashboard at most one
    call of [createDevotion] or [updateDevotion] is under way, and while
    one is, [submitting] is on and the button is disabled. *)
Theorem submit_single_flight (ss : Session) :
  reachable toISOString ss ->
  length (submits (calls ss)) <= 1 /\
  (submits (calls ss) <> [] ->
   submitting (view ss) = true /\
   forall now, ~ offered (ClickSubmit now) ss).
Proof.
  intros Hinv%submit_inv_reachable. unfold submit_inv in Hinv.
  destruct (submitting (view ss)) eqn:Hsub.
  - split; [done|]. intros _. split; [done|].
    intros now Hoff. simpl in Hoff. congruence.
  - rewrite Hinv. simpl. split; [lia|done].
Qed.

(** X11: With a date that is not one, a click on the submit button sends
    nothing and leaves the cache alone, but turns [submitting] on for good:
    whatever the admin and the store do next, the button stays disabled. *)
Theorem invalid_date_locks_form (ss ss' : Session) (now : jsstring) :
  reachable toISOString ss ->
  offered (ClickSubmit now) ss ->
  toISOString (date (view ss)) = None ->
  reaches toISOString (step toISOString (ClickSubmit now) ss) ss' ->
  calls (step toISOString (ClickSubmit now) ss) = calls ss /\
  devotions (view (step toISOString (ClickSubmit now) ss))
  = devotions (view ss) /\
  submitting (view ss') = true /\
  forall now', ~ offered (ClickSubmit now') ss'.
Proof.
  intros Hinv%submit_inv_reachable Hoff Hdate Hrun.
  simpl in Hoff. unfold submit_inv in Hinv. rewrite Hoff in Hinv.
  assert (clickSubmit toISOString now (view ss)
          = (set_error None (set_submitting true (view ss)),
             Some RangeError)) as Hclick.
  { unfold clickSubmit, updateDevotion_begin, createDevotion_begin.
    simpl. rewrite Hdate.
    destruct (editingId (view ss)) as [i|]; simpl; [|done].
    by destruct (i =? 0)%Z. }
  assert (submitting (view ss') = true /\ submits (calls ss') = [])
    as [Hsub _].
  { induction Hrun as [|ss' e Hrun [IHs IHc] He].
    - simpl. rewrite Hclick. simpl. by rewrite app_nil_r.
    - assert (submit_inv (step toISOString e ss')) as Hstep.
      { apply submit_inv_step; [|done]. unfold submit_inv.
        rewrite IHs, IHc. simpl. lia. }
      unfold submit_inv in Hstep.
      destruct ss' as [s cs]. simpl in *.
      destruct e as [v|v|v|v|now'|d|now'|d conf|i|i resp|i ack now'];
        simpl in *; try done.
      + congruence.
      + destruct conf; simpl; [|by rewrite app_nil_r].
        by rewrite submits_app, app_nil_r.
      + destruct (cs !! i) as [[]|] eqn:Hi; try done. simpl.
        rewrite submits_app, app_nil_r.
        by rewrite (submits_delete_other i LoadingSession).
      + destruct (cs !! i) as [[]|] eqn:Hi; try done. simpl.
        rewrite (submits_delete_other i Loading) by done.
        by destruct resp.
      + destruct (cs !! i) as [c|] eqn:Hi; [|done].
        destruct c as [| | |dd|d]; try done; simpl.
        * pose proof (submits_delete_submit i Creating cs Hi eq_refl) as Hl.
          by rewrite IHc in Hl.
        * pose proof (submits_delete_submit i (Updating dd) cs Hi eq_refl)
            as Hl.
          by rewrite IHc in Hl.
        * rewrite (submits_delete_other i (Deleting d)) by done.
          by destruct ack. }
  simpl. rewrite Hclick. simpl. rewrite app_nil_r.
  split_and!; [done..|].
  intros now' Hoff'. simpl in Hoff'. congruence.
Qed.

(** X12: A devotion with the id 0 cannot be updated: [updateDevotion] returns at
    once, and the submit button, finding [editingId] falsy, publishes the
    edited fields as a new devotion. *)
Theorem edit_of_id_zero_publishes_copy (devotion : Devotion)
    (now iso : jsstring) (s : State) :
  id devotion = 0%Z ->
  toISOString (date (startEdit toISOString devotion s)) = Some iso ->
  let s1 := startEdit toISOString devotion s in
  updateDevotion_begin toISOString s1 = (s1, None) /\
  (clickSubmit toISOString now s1).2
  = Some (Insert (mkFields (trim (Model.title devotion))
                           (trim (Model.verse devotion))
                           (trim (Model.content devotion)) iso) now).
Proof.
  intros Hid Hiso s1. subst s1.
  unfold clickSubmit, updateDevotion_begin, createDevotion_begin.
  simpl in *. rewrite Hid. simpl. by rewrite Hiso.
Qed.

(** X13: When the admin cancels the edit while the update is under way, the
    store has the update, the dashboard announces it, and the cache keeps
    the entry as it was. *)
Theorem cancelled_update_not_projected (s : State) (i : Z)
    (iso now now' : jsstring) :
  editingId s = Some i -> i <> 0%Z ->
  toISOString (date s) = Some iso ->
  let out := updateDevotion_begin toISOString s in
  let s' := updateDevotion_resume iso now' Accepted (cancelEdit now out.1) in
  out.2 = Some (Update i (mkFields (trim (title s)) (trim (verse s))
                                   (trim (content s)) iso)) /\
  devotions s' = devotions s /\
  alerts s' = alerts s ++ [js "Devotion updated successfully."].
Proof.
  intros Hedit Hi Hiso out s'. subst out s'.
  unfold updateDevotion_begin. rewrite Hedit.
  apply Z.eqb_neq in Hi. rewrite Hi. simpl. rewrite Hiso. simpl.
  split; [done|].
  rewrite (proj2 (list_find_None _ _)); [done|].
  apply Forall_forall. by intros d _ ?.
Qed.

End WithDates.

Lemma submit_single_flight_witness :
  let ss := MoreSamples.publishing in
  reachable Samples.isoOfInput ss /\
  length (submits (calls ss)) <= 1 /\
  (submits (calls ss) <> [] ->
   submitting (view ss) = true /\
   forall now, ~ offered (ClickSubmit now) ss).
Proof.
  intros ss.
  assert (reachable Samples.isoOfInput ss) as Hss.
  { apply (reachable_step _ _ (ClickSubmit _)); [|reflexivity].
    apply (reachable_step _ _ (TypeTitle _)); [|exact I].
    apply (reachable_step _ _ (Loaded 0 _)); [|exact I].
    apply (reachable_step _ _ (SessionLoaded 0)); [|exact I].
    apply reachable_mounted. }
  split; [exact Hss|]. apply (submit_single_flight Samples.isoOfInput ss).
  exact Hss.
Defined.

Lemma invalid_date_locks_form_witness :
  let ss := MoreSamples.dateless in
  let now := Samples.clock in
  let ss' := step Samples.isoOfInput (TypeDate (js "2025-01-21"))
               (step Samples.isoOfInput (ClickSubmit now) ss) in
  calls (step Samples.isoOfInput (ClickSubmit now) ss) = calls ss /\
  devotions (view (step Samples.isoOfInput (ClickSubmit now) ss))
  = devotions (view ss) /\
  submitting (view ss') = true /\
  forall now', ~ offered (ClickSubmit now') ss'.
Proof.
  intros ss now ss'.
  apply (invalid_date_locks_form Samples.isoOfInput ss ss' now).
  - apply (reachable_step _ _ (TypeDate _)); [|exact I].
    apply (reachable_step _ _ (TypeTitle _)); [|exact I].
    apply (reachable_step _ _ (Loaded 0 _)); [|exact I].
    apply (reachable_step _ _ (SessionLoaded 0)); [|exact I].
    apply reachable_mounted.
  - reflexivity.
  - reflexivity.
  - apply (reaches_step _ _ _ (TypeDate _)); [|exact I]. apply reaches_here.
Defined.

Lemma edit_of_id_zero_publishes_copy_witness :
  let devotion := MoreSamples.zeroth in
  let s := Samples.composing in
  let now := Samples.clock in
  let iso := js "2025-01-01T00:00:00.000Z" in
  let s1 := startEdit MoreSamples.isoOfDate devotion s in
  updateDevotion_begin MoreSamples.isoOfDate s1 = (s1, None) /\
  (clickSubmit MoreSamples.isoOfDate now s1).2
  = Some (Insert (mkFields (trim (Model.title devotion))
                           (trim (Model.verse devotion))
                           (trim (Model.content devotion)) iso) now).
Proof.
  intros devotion s now iso.
  apply (edit_of_id_zero_publishes_copy MoreSamples.isoOfDate devotion now iso s).
  - reflexivity.
  - reflexivity.
Defined.

Lemma cancelled_update_not_projected_witness :
  let s := Samples.editing in
  let iso := js "2025-02-01T00:00:00.000Z" in
  let now := Samples.clock in
  let out := updateDevotion_begin Samples.isoOfInput s in
  let s' := updateDevotion_resume iso now Accepted (cancelEdit now out.1) in
  out.2 = Some (Update 2 (mkFields (trim (title s)) (trim (verse s))
                                   (trim (content s)) iso)) /\
  devotions s' = devotions s /\
  alerts s' = alerts s ++ [js "Devotion updated successfully."].
Proof.
  intros s iso now.
  apply (cancelled_update_not_projected Samples.isoOfInput s 2 iso now now).
  - reflexivity.
  - lia.
  - reflexivity.
Defined.

End DashboardFacts.

(** ** The dashboard's cache under several answers; the route guard *)

Module AdminCacheFacts.
Import Admin Dashboard.

(** X14: Accepted deletes can arrive in either order, and twice, with the same
    cache as a result. *)
Theorem deletes_commute (a b : Devotion) (s : State) :
  devotions (deleteDevotion_resume a Accepted
               (deleteDevotion_resume b Accepted s))
  = devotions (deleteDevotion_resume b Accepted
                 (deleteDevotion_resume a Accepted s)) /\
  devotions (deleteDevotion_resume a Accepted
               (deleteDevotion_resume a Accepted s))
  = devotions (deleteDevotion_resume a Accepted s).
Proof.
  simpl. rewrite !list_filter_filter. split.
  - apply list_filter_iff. naive_solver.
  - apply list_filter_iff. naive_solver.
Qed.

Lemma update_ids devotionDate now ack s :
  id <$> devotions (updateDevotion_resume devotionDate now ack s)
  = id <$> devotions s.
Proof.
  destruct ack; [|done].
  rewrite AdminFacts.resume_update_devotions.
  destruct (list_find _ (devotions s)) as [[i x]|] eqn:Hfind; [|done].
  apply list_find_Some in Hfind as (Hi & _ & _).
  rewrite list_fmap_insert. simpl.
  apply list_insert_id. by rewrite list_lookup_fmap, Hi.
Qed.

(** X15: Whatever the answer and whatever the form holds, an update leaves the
    ids and the creation times of the cache as they were, position by
    position, and the cache as long as it was. *)
Theorem update_keeps_keys (devotionDate now : jsstring) (ack : Ack)
    (s : State) :
  let s' := updateDevotion_resume devotionDate now ack s in
  id <$> devotions s' = id <$> devotions s /\
  createdAt <$> devotions s' = createdAt <$> devotions s /\
  length (devotions s') = length (devotions s).
Proof.
  intros s'. subst s'. split; [apply update_ids|].
  destruct ack; [|done].
  rewrite AdminFacts.resume_update_devotions.
  destruct (list_find _ (devotions s)) as [[i x]|] eqn:Hfind; [|done].
  apply list_find_Some in Hfind as (Hi & _ & _).
  rewrite list_fmap_insert, length_insert. simpl.
  split; [|done]. apply list_insert_id. by rewrite list_lookup_fmap, Hi.
Qed.

Lemma filter_ids_NoDup (P : Devotion -> Prop) `{forall d, Decision (P d)}
    (l : list Devotion) :
  NoDup (id <$> l) -> NoDup (id <$> filter P l).
Proof.
  induction l as [|d l IH]; simpl; [done|].
  intros [Hd Hl]%NoDup_cons. rewrite filter_cons.
  destruct (decide (P d)); [|by apply IH].
  simpl. apply NoDup_cons. split; [|by apply IH].
  intros (x & Hx & [_ Hin]%list_elem_of_filter)%list_elem_of_fmap.
  apply Hd. rewrite Hx. by apply list_elem_of_fmap_2.
Qed.

(** X16: The ids of the dashboard's cache stay different from one another
    through every event, as long as the store answers loads with rows of
    different ids. *)
Theorem cache_ids_stay_unique (toISOString : jsstring -> option jsstring)
    (e : Event) (ss : Session) :
  NoDup (id <$> devotions (view ss)) ->
  answer_unique e ->
  NoDup (id <$> devotions (view (step toISOString e ss))).
Proof.
  destruct ss as [s cs]. simpl. intros Hs He.
  destruct e as [v|v|v|v|now|d|now|d conf|i|i resp|i ack now];
    simpl in *; try done.
  - unfold clickSubmit, updateDevotion_begin, createDevotion_begin.
    destruct (truthy (editingId s)).
    + destruct (editingId s) as [j|]; [|done].
      destruct (j =? 0)%Z; [done|]. simpl.
      by destruct (toISOString (date s)).
    + simpl. by destruct (toISOString (date s)).
  - by destruct conf.
  - by destruct (cs !! i) as [[]|].
  - destruct (cs !! i) as [[]|]; try done. simpl.
    by destruct resp.
  - destruct (cs !! i) as [[| | |dd|d]|]; try done; simpl.
    + by destruct ack.
    + by rewrite (update_ids dd now ack s).
    + destruct ack; [|done]. simpl. by apply filter_ids_NoDup.
Qed.

Lemma cache_ids_stay_unique_witness :
  let ss := step Samples.isoOfInput (SessionLoaded 0)
              (mounted Samples.clock) in
  let e := Loaded 0 (fetchAll Samples.twenty) in
  calls ss = [Loading] /\
  id <$> devotions (view (step Samples.isoOfInput e ss))
  = id <$> reverse Samples.twenty /\
  NoDup (id <$> devotions (view (step Samples.isoOfInput e ss))).
Proof.
  intros ss e. split; [reflexivity|]. split; [vm_compute; reflexivity|].
  apply (cache_ids_stay_unique Samples.isoOfInput e ss).
  - by_evaluation.
  - unfold answer_unique, e, fetchAll. by_evaluation.
Defined.

End AdminCacheFacts.

Module RouterFacts.
Import Router.

Lemma login_route_open :
  exists route,
    resolve (js "admin-login") = Some route /\ route ∈ routes /\
    name route = js "admin-login" /\
    path route = js "/admin/login" /\
    requiresAuth route = false /\
    forall p a', authGuard (mkLocation route p) a' = Proceed.
Proof.
  exists (mkRoute (js "/admin/login") (js "admin-login") false).
  split; [reflexivity|]. split; [|done].
  apply list_elem_of_further, list_elem_of_here.
Qed.

(** X17: The guard lets a navigation through exactly when the route asks
    for no session or the identity provider reports one without error;
    otherwise it redirects to the route named ["admin-login"] with the path
    asked for as [redirect]; that name stands for the route
    ["/admin/login"] of the table, which asks for no session, so that the
    redirected navigation always goes through. *)
Theorem guard_protects_and_terminates (to : Location) (a : AuthAnswer) :
  (authGuard to a = Proceed <->
   requiresAuth (matched to) = false \/
   (error a = false /\ is_Some (session a))) /\
  (authGuard to a <> Proceed ->
   authGuard to a = Redirect (js "admin-login") (fullPath to)) /\
  (forall n r, authGuard to a = Redirect n r ->
     n = js "admin-login" /\
     r = fullPath to /\
     exists route,
       resolve n = Some route /\ route ∈ routes /\
       name route = js "admin-login" /\
       path route = js "/admin/login" /\
       requiresAuth route = false /\
       forall p a', authGuard (mkLocation route p) a' = Proceed).
Proof.
  unfold authGuard, authGuard_begin, authGuard_resume.
  destruct (requiresAuth (matched to)); simpl.
  - destruct (error a); simpl.
    + split_and!; [naive_solver|done|].
      intros n r [= <- <-]. split_and!; [done..|].
      apply login_route_open.
    + destruct (session a) as [t|]; simpl.
      * split_and!; [|done..].
        split; [|done]. intros _. right. by split; [|eexists].
      * split_and!; [|done|].
        { split; [done|]. intros [?|[_ [? ?]]]; done. }
        intros n r [= <- <-]. split_and!; [done..|].
        apply login_route_open.
  - split_and!; [|done..]. split; [by left|done].
Qed.

Lemma guard_protects_and_terminates_witness :
  let to := mkLocation (mkRoute (js "/admin") (js "admin-dashboard") true)
                       (js "/admin?tab=list") in
  let a := mkAuthAnswer false None in
  (authGuard to a = Proceed <->
   requiresAuth (matched to) = false \/
   (error a = false /\ is_Some (session a))) /\
  (authGuard to a <> Proceed ->
   authGuard to a = Redirect (js "admin-login") (fullPath to)) /\
  (forall n r, authGuard to a = Redirect n r ->
     n = js "admin-login" /\
     r = fullPath to /\
     exists route,
       resolve n = Some route /\ route ∈ routes /\
       name route = js "admin-login" /\
       path route = js "/admin/login" /\
       requiresAuth route = false /\
       forall p a', authGuard (mkLocation route p) a' = Proceed).
Proof.
  intros to a. apply (guard_protects_and_terminates to a).
Defined.

(** X18: A successful login goes to the path the guard refused, handed over in
    the [redirect] query, or to ["/admin"] when there is none; a failed
    login goes nowhere, keeps what was typed and shows the error. *)
Theorem login_returns_to_requested_path (to : Location) (a a' : AuthAnswer)
    (n r : jsstring) (s : Login.State) :
  authGuard to a = Redirect n r ->
  fullPath to <> [] ->
  (error a' = false -> is_Some (session a') ->
   Login.handleLogin_resume (Some r) a' s
   = (s, [Login.Alert (js "Welcome back."); Login.Push (fullPath to)]) /\
   Login.handleLogin_resume None a' s
   = (s, [Login.Alert (js "Welcome back."); Login.Push (js "/admin")])) /\
  (error a' = true \/ session a' = None ->
   forall q,
     Login.handleLogin_resume q a' s
     = (Login.mkState (Login.email s) (Login.password s) false
          (Some (js "Login failed. Please check your details and try again.")),
        [])).
Proof.
  intros Hguard Hpath.
  assert (r = fullPath to) as ->.
  { unfold authGuard, authGuard_begin, authGuard_resume in Hguard.
    destruct (negb _); [done|]. destruct (_ || _); by simplify_eq. }
  unfold Login.handleLogin_resume. split.
  - intros -> [t ->]. simpl. split; [|done]. by destruct (fullPath to).
  - intros [Ha | Ha] q; rewrite Ha; [done|]. simpl. by rewrite orb_true_r.
Qed.

Lemma login_returns_to_requested_path_witness :
  let to := mkLocation (mkRoute (js "/admin") (js "admin-dashboard") true)
                       (js "/admin?tab=list") in
  let a := mkAuthAnswer false None in
  let a' := mkAuthAnswer false (Some (js "token")) in
  let s := Login.mkState (js " admin@example.org") (js "secret") true None in
  (error a' = false -> is_Some (session a') ->
   Login.handleLogin_resume (Some (js "/admin?tab=list")) a' s
   = (s, [Login.Alert (js "Welcome back."); Login.Push (fullPath to)]) /\
   Login.handleLogin_resume None a' s
   = (s, [Login.Alert (js "Welcome back."); Login.Push (js "/admin")])) /\
  (error a' = true \/ session a' = None ->
   forall q,
     Login.handleLogin_resume q a' s
     = (Login.mkState (Login.email s) (Login.password s) false
          (Some (js "Login failed. Please check your details and try again.")),
        [])).
Proof.
  intros to a a' s.
  apply (login_returns_to_requested_path to a a' (js "admin-login")
           (js "/admin?tab=list") s).
  - reflexivity.
  - by_evaluation.
Defined.

End RouterFacts.

(** ** What the form sends *)

Module FormFacts.
Import Admin Dashboard.

Lemma trim_trimmed t : trimmed (trim t) /\ trim (trim t) = trim t.
Proof.
  destruct (DisplayFacts.trim_spec t) as (_ & _ & _ & _ & _ & Hh & Hl).
  split; [by split|apply DisplayFacts.trim_trim].
Qed.

Lemma find_by_id (l : list Devotion) (index : nat) (d : Devotion) :
  NoDup (id <$> l) -> l !! index = Some d ->
  list_find (fun x => Some (id x) = Some (id d)) l = Some (index, d).
Proof.
  intros Hnodup Hd. apply list_find_Some. split_and!; [done..|].
  intros j y Hy Hj [= Hid].
  assert (j = index); [|lia].
  apply (NoDup_lookup (id <$> l) j index (id d)); [done|..].
  - rewrite list_lookup_fmap, Hy. simpl. by f_equal.
  - by rewrite list_lookup_fmap, Hd.
Qed.

Section WithDates.

Variable toISOString : jsstring -> option jsstring.

(** X19: Whatever is typed into the form, the title, verse and content that the
    submit button sends to the store have no white space at either end, and
    trimming them again changes nothing. *)
Theorem submitted_fields_trimmed (now : jsstring) (s : State)
    (r : Request) (f : Fields) :
  (clickSubmit toISOString now s).2 = Some r ->
  payload r = Some f ->
  (trimmed (f_title f) /\ trim (f_title f) = f_title f) /\
  (trimmed (f_verse f) /\ trim (f_verse f) = f_verse f) /\
  (trimmed (f_content f) /\ trim (f_content f) = f_content f).
Proof.
  unfold clickSubmit, updateDevotion_begin, createDevotion_begin.
  destruct (truthy (editingId s)).
  - destruct (editingId s) as [i|]; [|done].
    destruct (i =? 0)%Z; [done|]. simpl.
    destruct (toISOString (date s)); simpl; intros [= <-] [= <-]; simpl;
      split_and!; apply trim_trimmed.
  - simpl. destruct (toISOString (date s)); simpl; intros [= <-] [= <-];
      simpl; split_and!; apply trim_trimmed.
Qed.

(** X20: Opening a stored devotion in the form and saving it untouched sends
    its own id and fields, and the answer writes the entry back where it
    was, the same but for the date, which comes back as the form read
    it. *)
Theorem unchanged_edit_keeps_entry (d : Devotion) (s : State)
    (index : nat) (iso now : jsstring) :
  NoDup (id <$> devotions s) ->
  devotions s !! index = Some d ->
  id d <> 0%Z ->
  trim (Model.title d) = Model.title d ->
  trim (Model.verse d) = Model.verse d ->
  trim (Model.content d) = Model.content d ->
  toISOString (date (startEdit toISOString d s)) = Some iso ->
  let out := updateDevotion_begin toISOString (startEdit toISOString d s) in
  let s' := updateDevotion_resume iso now Accepted out.1 in
  out.2 = Some (Update (id d)
                       (mkFields (Model.title d) (Model.verse d)
                                 (Model.content d) iso)) /\
  devotions s'
  = <[index := mkDevotion (id d) (Model.title d) (Model.verse d)
                          (Model.content d) iso (createdAt d)]>
      (devotions s) /\
  editingId s' = None /\ submitting s' = false.
Proof.
  intros Hnodup Hd Hid Ht Hv Hc Hiso out s'. subst out s'.
  apply Z.eqb_neq in Hid.
  assert (updateDevotion_begin toISOString (startEdit toISOString d s)
          = (set_error None
               (set_submitting true (startEdit toISOString d s)),
             Some (Update (id d)
                          (mkFields (Model.title d) (Model.verse d)
                                    (Model.content d) iso)))) as ->.
  { unfold updateDevotion_begin. cbn -[trim] in *. rewrite Hid.
    cbn -[trim]. by rewrite Hiso, Ht, Hv, Hc. }
  split; [done|]. split; [|done].
  rewrite AdminFacts.resume_update_devotions. cbn -[trim].
  rewrite (find_by_id (devotions s) index d) by done.
  unfold patched. cbn -[trim]. by rewrite Ht, Hv, Hc.
Qed.

End WithDates.

Lemma submitted_fields_trimmed_witness :
  let s := Samples.composing in
  let now := Samples.clock in
  let f := mkFields (trim (title s)) (trim (verse s)) (trim (content s))
                    (js "2025-01-21T00:00:00.000Z") in
  (trimmed (f_title f) /\ trim (f_title f) = f_title f) /\
  (trimmed (f_verse f) /\ trim (f_verse f) = f_verse f) /\
  (trimmed (f_content f) /\ trim (f_content f) = f_content f).
Proof.
  intros s now f.
  apply (submitted_fields_trimmed Samples.isoOfInput now s (Insert f now) f).
  - reflexivity.
  - reflexivity.
Defined.

Lemma unchanged_edit_keeps_entry_witness :
  let d := Samples.sample 2 "02" in
  let s := Samples.composing in
  let iso := js "2025-01-02T00:00:00.000Z" in
  let now := Samples.clock in
  let out := updateDevotion_begin MoreSamples.isoOfDate
               (startEdit MoreSamples.isoOfDate d s) in
  let s' := updateDevotion_resume iso now Accepted out.1 in
  out.2 = Some (Update (id d)
                       (mkFields (Model.title d) (Model.verse d)
                                 (Model.content d) iso)) /\
  devotions s'
  = <[1 := mkDevotion (id d) (Model.title d) (Model.verse d)
                      (Model.content d) iso (createdAt d)]>
      (devotions s) /\
  editingId s' = None /\ submitting s' = false.
Proof.
  intros d s iso now.
  apply (unchanged_edit_keeps_entry MoreSamples.isoOfDate d s 1 iso now).
  - by_evaluation.
  - reflexivity.
  - by_evaluation.
  - reflexivity.
  - reflexivity.
  - reflexivity.
  - reflexivity.
Defined.

End FormFacts.

(** ** The selection and the deletes *)

Module SelectionFacts.

Lemma delete_splits (l : list Devotion) (d : Devotion) :
  NoDup (id <$> l) -> d ∈ l ->
  exists l1 l2,
    l = l1 ++ d :: l2 /\
    filter (fun x => id x <> id d) l = l1 ++ l2.
Proof.
  intros Hnodup (l1 & l2 & ->)%list_elem_of_split.
  exists l1, l2. split; [done|].
  rewrite fmap_app, fmap_cons in Hnodup.
  apply NoDup_app in Hnodup as (_ & Hl1 & [Hl2 _]%NoDup_cons).
  rewrite filter_app, filter_cons_False by (by intros ?).
  rewrite !AdminFacts.filter_keeps; [done| |].
  - apply Forall_forall. intros x Hx Hxd. apply Hl2.
    rewrite <-Hxd. by apply list_elem_of_fmap_2.
  - apply Forall_forall. intros x Hx Hxd.
    apply (Hl1 (id x)); [by apply list_elem_of_fmap_2|].
    rewrite Hxd. by left.
Qed.

(** C9 (as the code has it): in a mounted reading view the selection, when
    there is one, is an entry of that view's cache, and no event of that
    view takes an entry out of a cache that has loaded.  A delete that the
    store accepts takes the entry, and nothing else, out of the dashboard's
    cache (ids being unique) and the rows of that id out of the store; it
    leaves the reading view as it was: its cache, its selection and the
    lock of the page scroll, so that a devotion open there stays open, an
    entry of that view's cache still. *)
Theorem selection_stays_in_reader_cache (w : Site) (devotion : Devotion) :
  Reader.reachable (reader w) ->
  NoDup (id <$> Admin.devotions (admin w)) ->
  devotion ∈ Admin.devotions (admin w) ->
  let w' := site_delete devotion w in
  (forall d, Reader.selectedDevotion (reader w) = Some d ->
             d ∈ Reader.devotions (reader w)) /\
  (forall e, Reader.loading (reader w) = false ->
             Reader.offered e (reader w) ->
             Reader.devotions (reader w)
               `prefix_of` Reader.devotions (Reader.step e (reader w))) /\
  (exists l1 l2,
     Admin.devotions (admin w) = l1 ++ devotion :: l2 /\
     Admin.devotions (admin w') = l1 ++ l2) /\
  (forall x, x ∈ Admin.devotions (admin w') -> id x <> id devotion) /\
  (forall x, x ∈ store w' -> id x <> id devotion) /\
  Reader.devotions (reader w') = Reader.devotions (reader w) /\
  Reader.selectedDevotion (reader w') = Reader.selectedDevotion (reader w) /\
  Reader.bodyOverflow (reader w') = Reader.bodyOverflow (reader w) /\
  (forall d, Reader.selectedDevotion (reader w') = Some d ->
             d ∈ Reader.devotions (reader w')).
Proof.
  intros Hreach Hnodup Hin w'. subst w'.
  pose proof (ReaderFacts.view_inv_reachable _ Hreach) as Hinv.
  destruct Hinv as [Hp Hsel].
  destruct w as [rows r a]. simpl in *.
  split_and!; try done.
  - intros e Hl He.
    by destruct (ScrollFacts.loaded_step e r) as [Hpre _].
  - by apply delete_splits.
  - by intros x [Hx _]%list_elem_of_filter.
  - unfold store_delete. by intros x [Hx _]%list_elem_of_filter.
Qed.

Lemma selection_stays_in_reader_cache_witness :
  let w := Samples.opened in
  let devotion := Samples.sample 2 "02" in
  let w' := site_delete devotion w in
  (forall d, Reader.selectedDevotion (reader w) = Some d ->
             d ∈ Reader.devotions (reader w)) /\
  (forall e, Reader.loading (reader w) = false ->
             Reader.offered e (reader w) ->
             Reader.devotions (reader w)
               `prefix_of` Reader.devotions (Reader.step e (reader w))) /\
  (exists l1 l2,
     Admin.devotions (admin w) = l1 ++ devotion :: l2 /\
     Admin.devotions (admin w') = l1 ++ l2) /\
  (forall x, x ∈ Admin.devotions (admin w') -> id x <> id devotion) /\
  (forall x, x ∈ store w' -> id x <> id devotion) /\
  Reader.devotions (reader w') = Reader.devotions (reader w) /\
  Reader.selectedDevotion (reader w') = Reader.selectedDevotion (reader w) /\
  Reader.bodyOverflow (reader w') = Reader.bodyOverflow (reader w) /\
  (forall d, Reader.selectedDevotion (reader w') = Some d ->
             d ∈ Reader.devotions (reader w')).
Proof.
  intros w devotion.
  apply (selection_stays_in_reader_cache w devotion).
  - apply (Reader.reachable_step _ (Reader.Open _)).
    + apply (Reader.reachable_step _ (Reader.Settle 0 _)); [|exact I].
      apply Reader.reachable_mounted.
    + unfold Reader.offered. by_evaluation.
  - by_evaluation.
  - by_evaluation.
Defined.

End SelectionFacts.
